(** * Mortuary charge reconciliation: a shallow embedding

    The billing engine of the repository is the helper
    [aurtoChargeCalculations] ([getFractionalDays], [saveChargeHistory],
    [updateMortuaryCharges]) together with the financial summary query of
    the invoice controller ([getAllDeceasedWithFinancials]).

    JavaScript numbers are IEEE 754 binary64 values and are embedded as
    Rocq's primitive [float]s, so [+], [-], [*], [/] and the comparisons
    below are the operations the program executes.  Rows returned by the
    database driver are records of JavaScript values. *)

From Stdlib Require Import ZArith List String Ascii Bool Lia.
From Stdlib Require Import Floats Uint63 DecimalString.
Import ListNotations.

Set Warnings "-inexact-float".

Local Open Scope string_scope.
Local Open Scope Z_scope.

(** ** JavaScript numbers *)

Module JsNumber.

(** [ToNumber] of an integer whose magnitude is below 2^63, rounded to the
    nearest double (ties to even) as [of_uint63] does. *)
Definition of_Z (z : Z) : float :=
  match z with
  | Z0 => 0%float
  | Zpos _ => PrimFloat.of_uint63 (Uint63.of_Z z)
  | Zneg _ => (- PrimFloat.of_uint63 (Uint63.of_Z (- z)))%float
  end.

(** The double nearest to [(-1)^neg * m * 10^e10]: the value of a decimal
    literal with digits [m] and decimal exponent [e10]. *)
Definition of_decimal (neg : bool) (m : Z) (e10 : Z) : float :=
  match m with
  | Zpos p =>
      if 0 <=? e10
      then SF2Prim (binary_normalize prec emax
                      (cond_Zopp neg (Zpos p * 10 ^ e10)) 0 false)
      else SF2Prim (SFdiv prec emax (S754_finite neg p 0)
                      (S754_finite false (Z.to_pos (10 ^ (- e10))) 0))
  | _ => if neg then (-0)%float else 0%float
  end.

(** [isNaN]. *)
Definition isNaN (x : float) : bool := negb (x =? x)%float.

(** The exact value of a finite non-zero double as a fraction
    [num / den] of its magnitude. *)
Definition magnitude (x : float) : option (Z * Z) :=
  match Prim2SF x with
  | S754_finite _ m e =>
      Some (if 0 <=? e then (Zpos m * 2 ^ e, 1) else (Zpos m, 2 ^ (- e)))
  | _ => None
  end.

Definition string_of_nat_Z (z : Z) : string :=
  NilZero.string_of_uint (N.to_uint (Z.to_N z)).

Fixpoint zeros (n : nat) : string :=
  match n with
  | O => EmptyString
  | S k => String "0" (zeros k)
  end.

(** [floor (num * 10^k / den)] for any integer [k]. *)
Definition scaled_floor (num den k : Z) : Z :=
  if 0 <=? k then (num * 10 ^ k) / den else num / (den * 10 ^ (- k)).

(** The least [n] from [lo] upwards with [num / den < 10^n]. *)
Fixpoint decimal_exponent (fuel : nat) (num den lo : Z) : Z :=
  match fuel with
  | O => lo
  | S k =>
      if (if 0 <=? lo then num <? den * 10 ^ lo
          else num * 10 ^ (- lo) <? den)
      then lo
      else decimal_exponent k num den (lo + 1)
  end.

(** Number::toString, steps 5 onwards: the least number [k] of digits and
    the digits [s] with [10^(k-1) <= s < 10^k] such that [s * 10^(n-k)]
    reads back as [x]; of two such [s] the one nearer to [x]. *)
Fixpoint shortest_digits (fuel : nat) (x : float) (num den n k : Z)
  : Z * Z * Z :=
  match fuel with
  | O => (0, n, k)
  | S fuel' =>
      let lo := scaled_floor num den (k - n) in
      let hi := lo + 1 in
      let back s e := Leibniz.eqb (of_decimal false s e) x in
      let ok_lo := (10 ^ (k - 1) <=? lo) && back lo (n - k) in
      let ok_hi := back hi (n - k) in
      (* is x nearer to lo than to hi; on a tie, is lo even *)
      let nearer_lo :=
        let twice := if 0 <=? k - n
                     then 2 * num * 10 ^ (k - n) - 2 * lo * den
                     else 2 * num - 2 * lo * den * 10 ^ (n - k) in
        let unit := if 0 <=? k - n then den else den * 10 ^ (n - k) in
        (twice <? unit) || ((twice =? unit) && Z.even lo) in
      let take_lo := (lo, n, k) in
      let take_hi := if hi =? 10 ^ k then (10 ^ (k - 1), n + 1, k)
                     else (hi, n, k) in
      if ok_lo && ok_hi then (if nearer_lo then take_lo else take_hi)
      else if ok_lo then take_lo
      else if ok_hi then take_hi
      else shortest_digits fuel' x num den n (k + 1)
  end.

(** Number::toString(x) in radix 10. *)
Definition toString (x : float) : string :=
  if isNaN x then "NaN"
  else if (x =? 0)%float then "0"
  else if (x =? infinity)%float then "Infinity"
  else if (x =? neg_infinity)%float then "-Infinity"
  else
    let sign := if (x <? 0)%float then "-" else "" in
    match magnitude x with
    | None => "NaN"
    | Some (num, den) =>
        let n0 := decimal_exponent 700 num den (-330) in
        let '(s, n, k) := shortest_digits 18 (abs x) num den n0 1 in
        let digits := string_of_nat_Z s in
        let e := n - 1 in
        let mant :=
          if k =? 1 then digits
          else (substring 0 1 digits ++ "." ++
                substring 1 (Z.to_nat (k - 1)) digits)%string in
        let esign := if 0 <=? e then "+" else "-" in
        let body :=
          if (k <=? n) && (n <=? 21)
          then (digits ++ zeros (Z.to_nat (n - k)))%string
          else if (0 <? n) && (n <=? 21)
          then (substring 0 (Z.to_nat n) digits ++ "." ++
                substring (Z.to_nat n) (Z.to_nat (k - n)) digits)%string
          else if (-6 <? n) && (n <=? 0)
          then ("0." ++ zeros (Z.to_nat (- n)) ++ digits)%string
          else
            (mant ++ "e" ++ esign ++ string_of_nat_Z (Z.abs e))%string in
        (sign ++ body)%string
    end.

(** Number.prototype.toFixed(f): the integer [n] for which [n / 10^f] is
    nearest to the magnitude of [x], the larger one on a tie, printed with
    [f] fraction digits. *)
Definition toFixed (f : nat) (x : float) : string :=
  if isNaN x then "NaN"
  else if (x =? infinity)%float then "Infinity"
  else if (x =? neg_infinity)%float then "-Infinity"
  else if (1e21 <=? abs x)%float then toString x
  else
    let sign := if (x <? 0)%float then "-" else "" in
    let n := match magnitude x with
             | None => 0
             | Some (num, den) =>
                 (2 * num * 10 ^ Z.of_nat f + den) / (2 * den)
             end in
    let m := string_of_nat_Z n in
    let m := (zeros (S f - String.length m)%nat ++ m)%string in
    let k := String.length m in
    let fraction := match f with
                    | O => ""
                    | _ => ("." ++ substring (k - f)%nat f m)%string
                    end in
    (sign ++ substring 0 (k - f)%nat m ++ fraction)%string.

End JsNumber.

(** ** JavaScript values held by result rows *)

Module Js.
Import JsNumber.

(** What a column of a result row can hold: SQL NULL, a number, or a string
    (the driver returns DECIMAL columns as strings). *)
Inductive value : Type :=
| VNull
| VNum (x : float)
| VStr (s : string).

(** ToBoolean. *)
Definition truthy (v : value) : bool :=
  match v with
  | VNull => false
  | VNum x => negb ((x =? 0)%float || isNaN x)
  | VStr s => negb (String.eqb s "")
  end.

(** [a || b]. *)
Definition or (a b : value) : value := if truthy a then a else b.

(** [a === b]. *)
Definition strict_eq (a b : value) : bool :=
  match a, b with
  | VNull, VNull => true
  | VNum x, VNum y => (x =? y)%float
  | VStr s, VStr t => String.eqb s t
  | _, _ => false
  end.

Definition ToString (v : value) : string :=
  match v with
  | VNull => "null"
  | VNum x => toString x
  | VStr s => s
  end.

(** The ASCII members of StrWhiteSpaceChar. *)
Definition is_space (c : ascii) : bool :=
  let n := Z.of_nat (nat_of_ascii c) in
  ((9 <=? n) && (n <=? 13)) || (n =? 32).

Fixpoint skip_spaces (s : string) : string :=
  match s with
  | String c rest => if is_space c then skip_spaces rest else s
  | EmptyString => s
  end.

Definition digit_of (radix : Z) (c : ascii) : option Z :=
  let n := Z.of_nat (nat_of_ascii c) in
  let d := if (48 <=? n) && (n <=? 57) then n - 48
           else if (97 <=? n) && (n <=? 122) then n - 87
           else if (65 <=? n) && (n <=? 90) then n - 55
           else radix in
  if d <? radix then Some d else None.

(** Reads the longest run of digits: the number read onto [acc], how many
    digits were read onto [count], and the rest of the input. *)
Fixpoint scan_digits (radix : Z) (s : string) (acc count : Z)
  : Z * Z * string :=
  match s with
  | String c rest =>
      match digit_of radix c with
      | Some d => scan_digits radix rest (acc * radix + d) (count + 1)
      | None => (acc, count, s)
      end
  | EmptyString => (acc, count, s)
  end.

Fixpoint strip_prefix (p s : string) : option string :=
  match p, s with
  | EmptyString, _ => Some s
  | String a p', String b s' =>
      if Ascii.eqb a b then strip_prefix p' s' else None
  | String _ _, EmptyString => None
  end.

Definition scan_sign (s : string) : bool * string :=
  match s with
  | String "-" rest => (true, rest)
  | String "+" rest => (false, rest)
  | _ => (false, s)
  end.

(** The exponent part [e], [E] with an optional sign and at least one
    digit; absent or incomplete, the exponent is 0 and nothing is read. *)
Definition scan_exponent (s : string) : Z * string :=
  match s with
  | String c rest =>
      if Ascii.eqb c "e" || Ascii.eqb c "E" then
        let '(neg, r) := scan_sign rest in
        let '(e, count, r') := scan_digits 10 r 0 0 in
        if 0 <? count then (if neg then - e else e, r') else (0, s)
      else (0, s)
  | EmptyString => (0, s)
  end.

(** The longest prefix of [s] that is a StrDecimalLiteral, as its value and
    the input left after it. *)
Definition scan_decimal (s : string) : option (float * string) :=
  let '(neg, r0) := scan_sign s in
  match strip_prefix "Infinity" r0 with
  | Some rest => Some (if neg then neg_infinity else infinity, rest)
  | None =>
      let '(i, ni, r1) := scan_digits 10 r0 0 0 in
      let '(m, nf, r2) :=
        match r1 with
        | String "." r => scan_digits 10 r i 0
        | _ => (i, 0, r1)
        end in
      if (ni =? 0) && (nf =? 0) then None
      else
        let '(e, r3) := scan_exponent r2 in
        Some (of_decimal neg m (e - nf), r3)
  end.

Definition parseFloat_string (s : string) : float :=
  match scan_decimal (skip_spaces s) with
  | Some (x, _) => x
  | None => nan
  end.

(** The radix of a NonDecimalIntegerLiteral prefix. *)
Definition radix_prefix (s : string) : option (Z * string) :=
  match s with
  | String "0" (String c rest) =>
      if Ascii.eqb c "x" || Ascii.eqb c "X" then Some (16, rest)
      else if Ascii.eqb c "o" || Ascii.eqb c "O" then Some (8, rest)
      else if Ascii.eqb c "b" || Ascii.eqb c "B" then Some (2, rest)
      else None
  | _ => None
  end.

(** StringToNumber. *)
Definition ToNumber_string (s : string) : float :=
  let t := skip_spaces s in
  if String.eqb t "" then 0%float
  else
    match radix_prefix t with
    | Some (radix, r) =>
        let '(n, count, rest) := scan_digits radix r 0 0 in
        if (0 <? count) && String.eqb (skip_spaces rest) ""
        then of_decimal false n 0 else nan
    | None =>
        match scan_decimal t with
        | Some (x, rest) =>
            if String.eqb (skip_spaces rest) "" then x else nan
        | None => nan
        end
    end.

Definition ToNumber (v : value) : float :=
  match v with
  | VNull => 0%float
  | VNum x => x
  | VStr s => ToNumber_string s
  end.

(** [parseFloat(v)]: the argument is first converted to a string. *)
Definition parseFloat (v : value) : float := parseFloat_string (ToString v).

(** [parseInt(s)] with no radix argument. *)
Definition parseInt_string (s : string) : float :=
  let '(neg, r) := scan_sign (skip_spaces s) in
  let '(radix, r') :=
    match radix_prefix r with
    | Some (16, rest) => (16, rest)
    | _ => (10, r)
    end in
  let '(n, count, _) := scan_digits radix r' 0 0 in
  if 0 <? count then of_decimal neg n 0 else nan.

Definition parseInt (v : value) : float := parseInt_string (ToString v).

End Js.

(** ** Dates *)

Module JsDate.
Import JsNumber.

(** A Date object: its time value in milliseconds since the epoch, or
    [None] for an Invalid Date. *)
Definition Date : Type := option Z.

(** TimeClip: a time value beyond 8.64e15 ms is an Invalid Date. *)
Definition TimeClip (t : Z) : Date :=
  if Z.abs t <=? 8640000000000000 then Some t else None.

(** [new Date(d)] for a Date [d]. *)
Definition new_Date (d : Date) : Date :=
  match d with
  | Some t => TimeClip t
  | None => None
  end.

(** [e - s] on two Dates: both are converted to their time values, which
    are integers below 2^53 and so exact doubles, and subtracted; the
    result is the integer difference rounded to the nearest double. *)
Definition minus (e s : Date) : float :=
  match new_Date e, new_Date s with
  | Some te, Some ts => of_Z (te - ts)
  | _, _ => nan
  end.

End JsDate.

(** ** Tables *)

Module Db.
Import Js JsDate.

(** A DATETIME column: SQL NULL, or a stored date-time given by the Date
    that [new Date(column)] yields for it. *)
Definition datetime : Type := option Date.

(** [new Date(column)]; [new Date(null)] is the epoch. *)
Definition Date_of (c : datetime) : Date :=
  match c with
  | Some d => new_Date d
  | None => Some 0
  end.

Module Deceased.
Record row : Type := {
  id : value;
  deceased_id : value;
  rate_category : value;
  created_at : datetime;
  date_admitted : datetime;
  last_charge_update : datetime;
  total_mortuary_charge : value;
  currency : value;
  usd_charge_rate : value;
  embalming_cost : value;
  status : value;
  balance : value
}.
End Deceased.

Module ChargeHistory.
Record row : Type := {
  deceased_id : value;
  charge_type : string;
  amount : float;
  currency : value;
  description : string
}.
End ChargeHistory.

Module CoffinIssue.
Record row : Type := {
  rfid : value;
  coffin_id : value;
  quantity : value
}.
End CoffinIssue.

Module Coffin.
Record row : Type := {
  coffin_id : value;
  exact_price : value;
  currency : value;
  price_usd : value;
  exchange_rate : value
}.
End Coffin.

Module ExtraCharge.
Record row : Type := {
  deceased_id : value;
  amount : value;
  status : value
}.
End ExtraCharge.

Module Payment.
Record row : Type := {
  deceased_id : value;
  amount : value
}.
End Payment.

Record database : Type := {
  deceased : list Deceased.row;
  charge_history : list ChargeHistory.row;
  coffin_issue : list CoffinIssue.row;
  coffins : list Coffin.row;
  extra_charges : list ExtraCharge.row;
  payments : list Payment.row
}.

(** *** SQL comparison

    [=] and [!=] of MySQL: NULL compares to nothing; two strings compare
    under the default case-insensitive collation; a string compared with a
    number is read as a number (its numeric prefix, 0 when there is
    none). *)
Definition lower (c : ascii) : ascii :=
  let n := nat_of_ascii c in
  if (65 <=? n)%nat && (n <=? 90)%nat then ascii_of_nat (n + 32) else c.

Fixpoint ci_eqb (s t : string) : bool :=
  match s, t with
  | EmptyString, EmptyString => true
  | String a s', String b t' => Ascii.eqb (lower a) (lower b) && ci_eqb s' t'
  | _, _ => false
  end.

Definition number_of_string (s : string) : float :=
  let t := skip_spaces s in
  match strip_prefix "Infinity" (snd (scan_sign t)) with
  | Some _ => 0%float
  | None => match scan_decimal t with
            | Some (x, _) => x
            | None => 0%float
            end
  end.

Definition sql_eq (a b : value) : bool :=
  match a, b with
  | VNull, _ | _, VNull => false
  | VStr s, VStr t => ci_eqb s t
  | VNum x, VNum y => (x =? y)%float
  | VNum x, VStr s | VStr s, VNum x => (x =? number_of_string s)%float
  end.

Definition sql_neq (a b : value) : bool :=
  match a, b with
  | VNull, _ | _, VNull => false
  | _, _ => negb (sql_eq a b)
  end.

Definition is_null (v : value) : bool :=
  match v with
  | VNull => true
  | _ => false
  end.

End Db.

(** ** The host: clock, database faults *)

Module Host.
Import Js JsDate Db.

(** The queries that [safeQuery] is called with. *)
Inductive query : Type :=
| SelectDeceased
| InsertChargeHistory (deceased_id : value)
| SelectCoffins (deceased_id : value)
| SelectExtraCharges (deceased_id : value)
| SelectPayments (deceased_id : value)
| UpdateDeceased (deceased_id : value).

(** What the program cannot decide. [clock k] is the time value of the
    [k]-th [new Date()] of the process. [kenyan t] is about the string that
    [getKenyanDateTime()] builds at time [t]: [None] when the local
    date-time that [toLocaleString] prints does not parse back, so that
    [toISOString] throws a RangeError; otherwise the Date that a DATETIME
    written as that string yields when the column is read again.
    [fails n q] says whether the [n]-th [safeQuery] of the process, being
    [q], rejects. *)
Record host : Type := {
  clock : nat -> Z;
  kenyan : Z -> option Date;
  fails : nat -> query -> bool
}.

Inductive error : Type :=
| QueryFailed (q : query)
| RangeError.

(** The state the program runs in: the tables, how many times the clock was
    read and [safeQuery] called, and the entries appended to
    [logs/mortuaryChargeErrors.log]. *)
Record world : Type := {
  db : database;
  ticks : nat;
  issued : nat;
  errorLog : list error
}.

Inductive outcome (A : Type) : Type :=
| Ok (a : A)
| Throw (e : error).
Arguments Ok {A} a.
Arguments Throw {A} e.

(** An [async] computation: it returns or throws, and what it did to the
    world stays done either way. *)
Definition M (A : Type) : Type := world -> outcome A * world.

Definition ret {A : Type} (a : A) : M A := fun w => (Ok a, w).

Definition throw {A : Type} (e : error) : M A := fun w => (Throw e, w).

Definition bind {A B : Type} (c : M A) (k : A -> M B) : M B :=
  fun w =>
    match c w with
    | (Ok a, w') => k a w'
    | (Throw e, w') => (Throw e, w')
    end.

Definition try_catch {A : Type} (c : M A) (handler : error -> M A) : M A :=
  fun w =>
    match c w with
    | (Ok a, w') => (Ok a, w')
    | (Throw e, w') => handler e w'
    end.

(** [for (const x of l) body] *)
Fixpoint for_of {A : Type} (l : list A) (body : A -> M unit) : M unit :=
  match l with
  | [] => ret tt
  | x :: rest => bind (body x) (fun _ => for_of rest body)
  end.

Definition when (b : bool) (c : M unit) : M unit := if b then c else ret tt.

End Host.

Declare Scope async_scope.
Delimit Scope async_scope with async.
Notation "x <- c ;; k" := (Host.bind c (fun x => k))
  (at level 61, c at next level, right associativity) : async_scope.
Notation "c ;; k" := (Host.bind c (fun _ => k))
  (at level 61, right associativity) : async_scope.

(** ** helpers/aurtoChargeCalculations *)

Module Charges.
Import JsNumber Js JsDate Db Host.
Local Open Scope async_scope.

(** [function getFractionalDays(start, end)] *)
Definition getFractionalDays (start end_ : Date) : float :=
  let s := new_Date start in
  let e := new_Date end_ in
  let ms := (1000 * 60 * 60 * 24)%float in
  let diff := (minus e s / ms)%float in
  if (0 <? diff)%float then diff else 0%float.

(** The part of [updateMortuaryCharges] that depends on one row of the
    deceased list only. *)
Definition cur (d : Deceased.row) : value :=
  or (Deceased.currency d) (VStr "KES").

Definition baseRate (d : Deceased.row) : float :=
  if strict_eq (cur d) (VStr "USD")
  then parseFloat (or (Deceased.usd_charge_rate d) (VNum 130))
  else if strict_eq (Deceased.rate_category d) (VStr "premium")
       then 5000%float
       else 3000%float.

Definition admissionDate (d : Deceased.row) : Date :=
  match Deceased.date_admitted d with
  | Some _ => Date_of (Deceased.date_admitted d)
  | None => Date_of (Deceased.created_at d)
  end.

Definition lastUpdate (d : Deceased.row) : Date :=
  match Deceased.last_charge_update d with
  | Some _ => Date_of (Deceased.last_charge_update d)
  | None => Date_of (Deceased.created_at d)
  end.

Definition totalStorageCharge (d : Deceased.row) (now : Z) : float :=
  (getFractionalDays (admissionDate d) (TimeClip now) * baseRate d)%float.

Definition incrementalDays (d : Deceased.row) (now : Z) : float :=
  getFractionalDays (lastUpdate d) (TimeClip now).

Definition incrementalCharge (d : Deceased.row) (now : Z) : float :=
  (incrementalDays d now * baseRate d)%float.

(** The amount read in a column: [parseFloat(amount || 0)]. *)
Definition amountOrZero (amount : value) : float :=
  parseFloat (or amount (VNum 0)).

Definition embalming (d : Deceased.row) : float :=
  amountOrZero (Deceased.embalming_cost d).

(** *** The SELECT statements, as functions of the tables *)

(** [WHERE created_at IS NOT NULL AND (status IS NULL OR status !=
    'Complete')] *)
Definition eligible (r : Deceased.row) : bool :=
  match Deceased.created_at r with
  | Some _ =>
      is_null (Deceased.status r)
      || sql_neq (Deceased.status r) (VStr "Complete")
  | None => false
  end.

Definition selectDeceased (t : database) : list Deceased.row :=
  filter eligible (deceased t).

(** A row of [coffin_issue ci JOIN coffins c ON ci.coffin_id =
    c.coffin_id]. *)
Record coffinRow : Type := {
  exact_price : value;
  coffin_currency : value;
  price_usd : value;
  exchange_rate : value;
  quantity : value
}.

Definition selectCoffins (t : database) (deceased_id : value)
  : list coffinRow :=
  flat_map
    (fun ci =>
       map (fun c => {| exact_price := Coffin.exact_price c;
                        coffin_currency := Coffin.currency c;
                        price_usd := Coffin.price_usd c;
                        exchange_rate := Coffin.exchange_rate c;
                        quantity := CoffinIssue.quantity ci |})
           (filter (fun c => sql_eq (CoffinIssue.coffin_id ci)
                                    (Coffin.coffin_id c))
                   (coffins t)))
    (filter (fun ci => sql_eq (CoffinIssue.rfid ci) deceased_id)
            (coffin_issue t)).

(** [WHERE deceased_id = ? AND status != 'Cancelled'] *)
Definition selectExtraCharges (t : database) (deceased_id : value)
  : list ExtraCharge.row :=
  filter (fun e => sql_eq (ExtraCharge.deceased_id e) deceased_id
                   && sql_neq (ExtraCharge.status e) (VStr "Cancelled"))
         (extra_charges t).

Definition selectPayments (t : database) (deceased_id : value)
  : list Payment.row :=
  filter (fun p => sql_eq (Payment.deceased_id p) deceased_id) (payments t).

(** *** The sums *)

(** The rate that a conversion uses: [(c.exchange_rate || 130)]. *)
Definition effectiveRate (c : coffinRow) : float :=
  ToNumber (or (exchange_rate c) (VNum 130)).


(** The body of [for (const c of coffinRows)]: the price of one row in the
    currency of the case. *)
Definition coffinPrice (cur : value) (c : coffinRow) : float :=
  if strict_eq (coffin_currency c) (VStr "KES") then
    if strict_eq cur (VStr "KES") then parseFloat (exact_price c)
    else (parseFloat (exact_price c) / effectiveRate c)%float
  else if strict_eq (coffin_currency c) (VStr "USD") then
    if strict_eq cur (VStr "USD") then parseFloat (price_usd c)
    else (parseFloat (price_usd c) * effectiveRate c)%float
  else 0%float.

Definition coffinCharges (cur : value) (coffinRows : list coffinRow)
  : float :=
  fold_left
    (fun acc c =>
       let qty := parseInt (or (quantity c) (VNum 1)) in
       (acc + coffinPrice cur c * qty)%float)
    coffinRows 0%float.

Definition extraCharges (extraRows : list ExtraCharge.row) : float :=
  fold_left
    (fun acc e => (acc + amountOrZero (ExtraCharge.amount e))%float)
    extraRows 0%float.

Definition totalPayments (paymentsRows : list Payment.row) : float :=
  fold_left
    (fun sum r => (sum + amountOrZero (Payment.amount r))%float)
    paymentsRows 0%float.

Definition newTotal (totalStorageCharge coffinCharges extraCharges
                     embalming : float) : float :=
  (totalStorageCharge + coffinCharges + extraCharges + embalming)%float.

(** *** The statements that write *)

Definition insertChargeHistory (r : ChargeHistory.row) (t : database)
  : database :=
  {| deceased := deceased t;
     charge_history := charge_history t ++ [r];
     coffin_issue := coffin_issue t;
     coffins := coffins t;
     extra_charges := extra_charges t;
     payments := payments t |}.

(** [UPDATE deceased SET total_mortuary_charge = ?, last_charge_update = ?,
    balance = ? WHERE deceased_id = ?] on one row. *)
Definition updateRow (deceased_id : value) (total : float) (now : Date)
  (balance : float) (r : Deceased.row) : Deceased.row :=
  if sql_eq (Deceased.deceased_id r) deceased_id then
    {| Deceased.id := Deceased.id r;
       Deceased.deceased_id := Deceased.deceased_id r;
       Deceased.rate_category := Deceased.rate_category r;
       Deceased.created_at := Deceased.created_at r;
       Deceased.date_admitted := Deceased.date_admitted r;
       Deceased.last_charge_update := Some now;
       Deceased.total_mortuary_charge := VNum total;
       Deceased.currency := Deceased.currency r;
       Deceased.usd_charge_rate := Deceased.usd_charge_rate r;
       Deceased.embalming_cost := Deceased.embalming_cost r;
       Deceased.status := Deceased.status r;
       Deceased.balance := VNum balance |}
  else r.

Definition updateDeceased (deceased_id : value) (total : float) (now : Date)
  (balance : float) (t : database) : database :=
  {| deceased := map (updateRow deceased_id total now balance) (deceased t);
     charge_history := charge_history t;
     coffin_issue := coffin_issue t;
     coffins := coffins t;
     extra_charges := extra_charges t;
     payments := payments t |}.

(** *** What one pass writes for a case

    The values of [newTotal], [balance] and of the history entry in the
    body of the loop, as functions of the tables, the row [d] of the
    deceased list, and the clock readings. *)
Definition caseCoffinCharges (t : database) (d : Deceased.row) : float :=
  coffinCharges (cur d) (selectCoffins t (Deceased.deceased_id d)).

Definition caseExtraCharges (t : database) (d : Deceased.row) : float :=
  extraCharges (selectExtraCharges t (Deceased.deceased_id d)).

Definition casePayments (t : database) (d : Deceased.row) : float :=
  totalPayments (selectPayments t (Deceased.deceased_id d)).

Definition caseTotal (t : database) (d : Deceased.row) (now : Z) : float :=
  newTotal (totalStorageCharge d now) (caseCoffinCharges t d)
           (caseExtraCharges t d) (embalming d).

Definition caseBalance (t : database) (d : Deceased.row) (now : Z) : float :=
  (caseTotal t d now - casePayments t d)%float.

Definition historyEntry (d : Deceased.row) (now : Z) : ChargeHistory.row :=
  {| ChargeHistory.deceased_id := Deceased.deceased_id d;
     ChargeHistory.charge_type := "daily_storage";
     ChargeHistory.amount := incrementalCharge d now;
     ChargeHistory.currency := cur d;
     ChargeHistory.description :=
       "Daily mortuary charge (" ++ toFixed 4 (incrementalDays d now)
       ++ " days)" |}.

(** [if (incrementalCharge > 0.01)] *)
Definition significant (incrementalCharge : float) : bool :=
  (0.01 <? incrementalCharge)%float.

Section Run.

Variable h : host.

(** [new Date()]: reads the clock. *)
Definition Date_now : M Z :=
  fun w => (Ok (clock h (ticks w)),
            {| db := db w; ticks := S (ticks w); issued := issued w;
               errorLog := errorLog w |}).

(** Modelled from the spec: [safeQuery] of configurations/sqlConfig/db,
    which is not among the sources.  It is the data-access layer of
    section 6 of the specification, which reads rows, writes the totals of
    a case and appends history rows: [await safeQuery(sql, params)] runs
    the one statement [q], acting on the tables as [run], outside any
    transaction, and returns its rows; or it rejects, when the host says
    so, and leaves the tables as they were. *)
Definition safeQuery {A : Type} (q : query) (run : database -> A * database)
  : M A :=
  fun w =>
    if fails h (issued w) q
    then (Throw (QueryFailed q),
          {| db := db w; ticks := ticks w; issued := S (issued w);
             errorLog := errorLog w |})
    else (Ok (fst (run (db w))),
          {| db := snd (run (db w)); ticks := ticks w;
             issued := S (issued w); errorLog := errorLog w |}).

(** [fs.appendFileSync(... 'mortuaryChargeErrors.log', errorLog)], after
    [new Date().toISOString()] for the entry.  The write to the file is
    taken to succeed. *)
Definition appendErrorLog (e : error) : M unit :=
  fun w => (Ok tt,
            {| db := db w; ticks := S (ticks w); issued := issued w;
               errorLog := errorLog w ++ [e] |}).

(** [function getKenyanDateTime()] *)
Definition getKenyanDateTime : M Date :=
  t <- Date_now ;;
  match kenyan h t with
  | Some now => ret now
  | None => throw RangeError
  end.

(** [async function saveChargeHistory(deceased_id, type, amount, currency,
    description)] *)
Definition saveChargeHistory (deceased_id : value) (type : string)
  (amount : float) (currency : value) (description : string) : M unit :=
  safeQuery (InsertChargeHistory deceased_id)
    (fun t => (tt, insertChargeHistory
                     {| ChargeHistory.deceased_id := deceased_id;
                        ChargeHistory.charge_type := type;
                        ChargeHistory.amount := amount;
                        ChargeHistory.currency := currency;
                        ChargeHistory.description := description |} t)).

(** The body of [for (const d of deceasedList)].  What it prints with
    [console.log] is left out. *)
Definition processCase (now : Date) (d : Deceased.row) : M unit :=
  let deceased_id := Deceased.deceased_id d in
  let cur := cur d in
  let baseRate := baseRate d in
  (* storage charges (total) *)
  let admissionDate := admissionDate d in
  t1 <- Date_now ;;
  let totalDays := getFractionalDays admissionDate (TimeClip t1) in
  let totalStorageCharge := (totalDays * baseRate)%float in
  (* daily logging (incremental) *)
  let lastUpdate := lastUpdate d in
  t2 <- Date_now ;;
  let incrementalDays := getFractionalDays lastUpdate (TimeClip t2) in
  let incrementalCharge := (incrementalDays * baseRate)%float in
  when (significant incrementalCharge)
    (saveChargeHistory deceased_id "daily_storage" incrementalCharge cur
       ("Daily mortuary charge (" ++ toFixed 4 incrementalDays ++ " days)")) ;;
  (* coffin charges *)
  coffinRows <- safeQuery (SelectCoffins deceased_id)
                  (fun t => (selectCoffins t deceased_id, t)) ;;
  let coffinCharges := coffinCharges cur coffinRows in
  (* extra charges *)
  extraRows <- safeQuery (SelectExtraCharges deceased_id)
                 (fun t => (selectExtraCharges t deceased_id, t)) ;;
  let extraCharges := extraCharges extraRows in
  (* embalming *)
  let embalming := embalming d in
  (* payments *)
  paymentsRows <- safeQuery (SelectPayments deceased_id)
                    (fun t => (selectPayments t deceased_id, t)) ;;
  let totalPayments := totalPayments paymentsRows in
  (* final total calculation *)
  let newTotal :=
    newTotal totalStorageCharge coffinCharges extraCharges embalming in
  let balance := (newTotal - totalPayments)%float in
  safeQuery (UpdateDeceased deceased_id)
    (fun t => (tt, updateDeceased deceased_id newTotal now balance t)).

(** [async function updateMortuaryCharges()] *)
Definition updateMortuaryCharges : M unit :=
  now <- getKenyanDateTime ;;
  try_catch
    (deceasedList <- safeQuery SelectDeceased
                       (fun t => (selectDeceased t, t)) ;;
     for_of deceasedList (processCase now))
    (fun err => appendErrorLog err).

End Run.

(** The tables with other extra charges; the world in which the loop
    starts, after the timestamp is taken and the deceased list read; the
    timestamp of the pass; the source tables being the same in two states
    of the database. *)
(** The row [d] as a pass that reads the clock at [t1] for it leaves it:
    the three columns of the UPDATE hold the timestamp of the pass, the
    total and the balance. *)
Definition reconciled (t : database) (now : Date) (d : Deceased.row)
  (t1 : Z) : Deceased.row :=
  {| Deceased.id := Deceased.id d;
     Deceased.deceased_id := Deceased.deceased_id d;
     Deceased.rate_category := Deceased.rate_category d;
     Deceased.created_at := Deceased.created_at d;
     Deceased.date_admitted := Deceased.date_admitted d;
     Deceased.last_charge_update := Some now;
     Deceased.total_mortuary_charge := VNum (caseTotal t d t1);
     Deceased.currency := Deceased.currency d;
     Deceased.usd_charge_rate := Deceased.usd_charge_rate d;
     Deceased.embalming_cost := Deceased.embalming_cost d;
     Deceased.status := Deceased.status d;
     Deceased.balance := VNum (caseBalance t d t1) |}.

Definition withExtraCharges (rows : list ExtraCharge.row) (t : database)
  : database :=
  {| deceased := deceased t;
     charge_history := charge_history t;
     coffin_issue := coffin_issue t;
     coffins := coffins t;
     extra_charges := rows;
     payments := payments t |}.

Definition loopStart (w : world) : world :=
  {| db := db w; ticks := S (ticks w); issued := S (issued w);
     errorLog := errorLog w |}.

Definition passTime (h : host) (w : world) : option Date :=
  kenyan h (clock h (ticks w)).

Definition same_sources (t t' : database) : Prop :=
  coffin_issue t' = coffin_issue t /\ coffins t' = coffins t /\
  extra_charges t' = extra_charges t /\ payments t' = payments t.

End Charges.

(** ** controllers/invoice: the financial summary query *)

Module Financials.
Import JsNumber Js JsDate Db.

(** A row of the response of [getAllDeceasedWithFinancials], with the
    columns that the query computes. *)
Record row : Type := {
  id : value;
  total_mortuary_charge : value;
  total_payments : float;
  total_extra_charges : float;
  total_charges : float;
  balance : float
}.

(** The number that SQL arithmetic reads in a column; [None] is NULL. *)
Definition sql_number (v : value) : option float :=
  match v with
  | VNull => None
  | VNum x => Some x
  | VStr s => Some (number_of_string s)
  end.

Fixpoint numbers (l : list value) : list float :=
  match l with
  | [] => []
  | v :: rest =>
      match sql_number v with
      | Some x => x :: numbers rest
      | None => numbers rest
      end
  end.

Fixpoint distinct (l : list float) : list float :=
  match l with
  | [] => []
  | x :: rest =>
      if existsb (fun y => (x =? y)%float) rest then distinct rest
      else x :: distinct rest
  end.

(** [COALESCE(SUM(DISTINCT column), 0)] *)
Definition coalesce_sum_distinct (column : list value) : float :=
  fold_left (fun acc x => (acc + x)%float) (distinct (numbers column))
            0%float.

(** [COALESCE(column, 0)] *)
Definition coalesce (v : value) : float :=
  match sql_number v with
  | Some x => x
  | None => 0%float
  end.

(** [LEFT JOIN payments p ON d.id = p.deceased_id] *)
Definition joinedPayments (t : database) (d : Deceased.row)
  : list Payment.row :=
  filter (fun p => sql_eq (Deceased.id d) (Payment.deceased_id p))
         (payments t).

(** [LEFT JOIN extra_charges ec ON d.id = ec.deceased_id]: no condition on
    [ec.status]. *)
Definition joinedExtraCharges (t : database) (d : Deceased.row)
  : list ExtraCharge.row :=
  filter (fun e => sql_eq (Deceased.id d) (ExtraCharge.deceased_id e))
         (extra_charges t).

(** The row of the group of [d] under [GROUP BY d.id]. *)
Definition summary (t : database) (d : Deceased.row) : row :=
  let paid :=
    coalesce_sum_distinct (map Payment.amount (joinedPayments t d)) in
  let extra :=
    coalesce_sum_distinct (map ExtraCharge.amount (joinedExtraCharges t d)) in
  let mortuary := coalesce (Deceased.total_mortuary_charge d) in
  {| id := Deceased.id d;
     total_mortuary_charge := Deceased.total_mortuary_charge d;
     total_payments := paid;
     total_extra_charges := extra;
     total_charges := (mortuary + extra)%float;
     balance := (mortuary + extra - paid)%float |}.

(** [getAllDeceasedWithFinancials]: the [data] of the response, one row
    for each deceased. *)
Definition getAllDeceasedWithFinancials (t : database) : list row :=
  map (summary t) (deceased t).

End Financials.

(** ** The specification's side

    Definitions that follow the words of the specification, to compare the
    program with. *)

Module Spec.
Import JsNumber Js JsDate Db Host Charges.

(** Section 4.2: "if currency == USD, use the case's stored usd_rate
    (default 130 if unset) as the daily rate in USD directly", otherwise
    "premium -> 5000 KES, anything else -> 3000 KES".  A rate is unset when
    the column holds no value, that is NULL; a stored rate, 0 included, is
    a rate. *)
Definition unset (v : value) : bool := is_null v.

Definition dailyRate (d : Deceased.row) : float :=
  if strict_eq (Deceased.currency d) (VStr "USD") then
    if unset (Deceased.usd_charge_rate d) then 130%float
    else parseFloat (Deceased.usd_charge_rate d)
  else if strict_eq (Deceased.rate_category d) (VStr "premium")
       then 5000%float
       else 3000%float.

(** Section 4.2 and 4.3: the total that a case is written with is its
    days since admission times [dailyRate], plus its coffin charges, extra
    charges and embalming cost. *)
Definition storage_at_daily_rate (h : host) (now : Date) (d : Deceased.row)
  (w : world) : Prop :=
  forall r : Deceased.row,
    fst (processCase h now d w) = Ok tt ->
    In r (deceased (db (snd (processCase h now d w)))) ->
    sql_eq (Deceased.deceased_id r) (Deceased.deceased_id d) = true ->
    Deceased.total_mortuary_charge r
    = VNum (getFractionalDays (admissionDate d)
                              (TimeClip (clock h (ticks w)))
            * dailyRate d
            + caseCoffinCharges (db w) d + caseExtraCharges (db w) d
            + embalming d)%float.

(** Section 8, non-negativity: "totalCharge >= 0 and accruedStorageCharge
    never returns a negative value": a case whose only charge is its
    storage is written with a total that is at least 0. *)
Definition storage_nonnegative_at (h : host) (now : Date) (d : Deceased.row)
  (w : world) : Prop :=
  forall (r : Deceased.row) (T : float),
    fst (processCase h now d w) = Ok tt ->
    In r (deceased (db (snd (processCase h now d w)))) ->
    sql_eq (Deceased.deceased_id r) (Deceased.deceased_id d) = true ->
    selectCoffins (db w) (Deceased.deceased_id d) = [] ->
    selectExtraCharges (db w) (Deceased.deceased_id d) = [] ->
    Deceased.embalming_cost d = VNull ->
    Deceased.total_mortuary_charge r = VNum T ->
    (0 <=? T)%float = true.

(** Section 4.3, step 8 and the balance identity of section 8: the row
    carries a total [T] and the balance [T - totalPayments] of the case
    [deceased_id]. *)
Definition balanced (t : database) (deceased_id : value) (r : Deceased.row)
  : Prop :=
  exists T : float,
    Deceased.total_mortuary_charge r = VNum T /\
    Deceased.balance r
    = VNum (T - totalPayments (selectPayments t deceased_id))%float.

(** Section 4.5: "one case's failure is caught, logged, and does not stop
    the rest", at one host and world: every eligible row none of whose own
    queries fails is reconciled when the pass ends, that is, carries the
    pass's timestamp. *)
Definition own_queries_succeed (h : host) (r : Deceased.row) : Prop :=
  forall n q,
    fails h n q = true ->
    q <> SelectDeceased /\
    q <> InsertChargeHistory (Deceased.deceased_id r) /\
    q <> SelectCoffins (Deceased.deceased_id r) /\
    q <> SelectExtraCharges (Deceased.deceased_id r) /\
    q <> SelectPayments (Deceased.deceased_id r) /\
    q <> UpdateDeceased (Deceased.deceased_id r).

Definition failure_isolated_at (h : host) (w : world) : Prop :=
  forall now r,
    kenyan h (clock h (ticks w)) = Some now ->
    In r (deceased (db (snd (updateMortuaryCharges h w)))) ->
    eligible r = true ->
    own_queries_succeed h r ->
    Deceased.last_charge_update r = Some now.

(** Section 4.1 and 7: "rate must be > 0; fails with InvalidRate
    otherwise", "skip that charge component for this pass": a coffin row
    that needs a conversion at a rate that is not positive adds nothing to
    the coffin charges. *)
Definition needs_conversion (cur : value) (c : coffinRow) : bool :=
  (strict_eq (coffin_currency c) (VStr "KES") && strict_eq cur (VStr "USD"))
  || (strict_eq (coffin_currency c) (VStr "USD")
      && strict_eq cur (VStr "KES")).

Definition invalid_rate_skipped_at (cur : value) (c : coffinRow) : Prop :=
  needs_conversion cur c = true ->
  (ToNumber (exchange_rate c) <=? 0)%float = true ->
  coffinCharges cur [c] = 0%float.

(** Section 7, DataIntegrityWarning: "non-numeric or missing amount on a
    source row; treat as zero": the total of the extra charges is that of
    the rows with the amount 0 in place of every amount that is not a
    number. *)
Definition numeric (v : value) : bool := negb (isNaN (parseFloat v)).

Definition zero_unless_numeric (e : ExtraCharge.row) : ExtraCharge.row :=
  {| ExtraCharge.deceased_id := ExtraCharge.deceased_id e;
     ExtraCharge.amount :=
       if numeric (ExtraCharge.amount e) then ExtraCharge.amount e
       else VNum 0;
     ExtraCharge.status := ExtraCharge.status e |}.

Definition bad_amounts_are_zero_at (rows : list ExtraCharge.row) : Prop :=
  extraCharges rows = extraCharges (map zero_unless_numeric rows).

(** Section 3: [case_id] is the stable identity of a case.  The values of
    [deceased_id] are keys: no two rows share one, and [=] holds between
    two of them exactly when they are the same. *)
Definition keys (ids : list value) : Prop :=
  NoDup ids /\
  forall a b, In a ids -> In b ids -> (sql_eq a b = true <-> a = b).

Definition keyed (rows : list Deceased.row) : Prop :=
  keys (map Deceased.deceased_id rows).

(** A database that rejects nothing. *)
Definition faultless (h : host) : Prop := forall n q, fails h n q = false.

(** A missing amount: NULL, the empty string or zero. *)
Definition missing (v : value) : bool := negb (truthy v).

End Spec.

(** ** Signs of doubles *)

Module Sign.

(** [x] is a number (not NaN) whose sign bit is [s]. *)
Definition has_sign (s : bool) (x : spec_float) : Prop :=
  match x with
  | S754_zero s' | S754_infinity s' | S754_finite s' _ _ => s' = s
  | S754_nan => False
  end.

(** [x] is not greater than zero: NaN, a zero, or a negative number. *)
Definition not_positive (x : spec_float) : Prop :=
  match x with
  | S754_infinity s | S754_finite s _ _ => s = true
  | _ => True
  end.

(** [x] is not less than zero: NaN, a zero, or a positive number. *)
Definition not_negative (x : spec_float) : Prop :=
  match x with
  | S754_infinity s | S754_finite s _ _ => s = false
  | _ => True
  end.

End Sign.

(** ** Cases and hosts to run the program on *)

Module Scenario.
Import JsNumber Js JsDate Db Host Charges.

Definition day : Z := 86400000.

(** 2024-01-01T00:00:00Z *)
Definition T0 : Z := 1704067200000.

(** A case admitted at [T0] and never reconciled. *)
Definition admitted (deceased_id : string) (rate_category currency
                     usd_charge_rate : value) : Deceased.row :=
  {| Deceased.id := VStr deceased_id;
     Deceased.deceased_id := VStr deceased_id;
     Deceased.rate_category := rate_category;
     Deceased.created_at := Some (Some T0);
     Deceased.date_admitted := Some (Some T0);
     Deceased.last_charge_update := None;
     Deceased.total_mortuary_charge := VNull;
     Deceased.currency := currency;
     Deceased.usd_charge_rate := usd_charge_rate;
     Deceased.embalming_cost := VNull;
     Deceased.status := VNull;
     Deceased.balance := VNull |}.

Definition tables (cases : list Deceased.row)
  (issues : list CoffinIssue.row) (catalogue : list Coffin.row)
  (extras : list ExtraCharge.row) (paid : list Payment.row) : database :=
  {| deceased := cases;
     charge_history := [];
     coffin_issue := issues;
     coffins := catalogue;
     extra_charges := extras;
     payments := paid |}.

Definition start (t : database) : world :=
  {| db := t; ticks := 0; issued := 0; errorLog := [] |}.

(** A host whose clock stands at [now], that stores the timestamp as it
    is, and whose database rejects the queries that [rejects] names. *)
Definition at_time (now : Z) (rejects : query -> bool) : host :=
  {| clock := fun _ => now;
     kenyan := fun t => Some (Some t);
     fails := fun _ q => rejects q |}.

Definition never (q : query) : bool := false.

(** A USD case billed 130 a day. *)
Definition usdCase : Deceased.row :=
  admitted "U" (VStr "standard") (VStr "USD") (VNum 130).

(** USD cases whose stored rate is the number 0, the text -130.00, and a
    text that is not a number. *)
Definition zeroRateCase : Deceased.row :=
  admitted "Z" (VStr "standard") (VStr "USD") (VNum 0).

Definition negativeRateCase : Deceased.row :=
  admitted "N" (VStr "standard") (VStr "USD") (VStr "-130.00").

Definition malformedRateCase : Deceased.row :=
  admitted "M" (VStr "standard") (VStr "USD") (VStr "abc").

(** A case alone in the tables, and the host whose clock stands [elapsed]
    milliseconds after its admission and whose database rejects
    nothing. *)
Definition alone (d : Deceased.row) : world := start (tables [d] [] [] [] []).

Definition after (elapsed : Z) : host := at_time (T0 + elapsed) never.

(** The row of [d] written with [total] by a pass at [T0 + elapsed] when
    the case has no payment. *)
Definition written (d : Deceased.row) (elapsed : Z) (total : float)
  : Deceased.row :=
  updateRow (Deceased.deceased_id d) total (Some (T0 + elapsed)) total d.

(** Two standard KES cases. *)
Definition caseA : Deceased.row :=
  admitted "A" (VStr "standard") (VStr "KES") VNull.

Definition caseB : Deceased.row :=
  admitted "B" (VStr "standard") (VStr "KES") VNull.

(** A before B, two days after admission; the database rejects the query
    for the payments of A and nothing else. *)
Definition twoCases : world := start (tables [caseA; caseB] [] [] [] []).

Definition paymentsOfA (q : query) : bool :=
  match q with
  | SelectPayments (VStr s) => String.eqb s "A"
  | _ => false
  end.

Definition paymentsOfA_fail : host := at_time (T0 + 2 * day) paymentsOfA.

(** One case, two days after admission; the database rejects the update of
    its row and nothing else. *)
Definition oneCase : world := start (tables [caseA] [] [] [] []).

Definition updateOfA (q : query) : bool :=
  match q with
  | UpdateDeceased (VStr s) => String.eqb s "A"
  | _ => false
  end.

Definition updateOfA_fails : host := at_time (T0 + 2 * day) updateOfA.

(** A host two days after admission whose database rejects nothing. *)
Definition calm : host := at_time (T0 + 2 * day) never.

(** A host whose clock advances by a minute at every reading, from two
    days after admission, and whose database rejects nothing. *)
Definition ticking : host :=
  {| clock := fun k => T0 + 2 * day + 60000 * Z.of_nat k;
     kenyan := fun t => Some (Some t);
     fails := fun _ _ => false |}.

(** The tables with one payment more. *)
Definition pay (p : Payment.row) (w : world) : world :=
  {| db := {| deceased := deceased (db w);
              charge_history := charge_history (db w);
              coffin_issue := coffin_issue (db w);
              coffins := coffins (db w);
              extra_charges := extra_charges (db w);
              payments := payments (db w) ++ [p] |};
     ticks := ticks w;
     issued := issued w;
     errorLog := errorLog w |}.

(** A coffin priced 13000 KES whose stored exchange rate is 0, and one
    whose stored rate is -130. *)
Definition zeroRateCoffin : coffinRow :=
  {| exact_price := VStr "13000.00";
     coffin_currency := VStr "KES";
     price_usd := VNull;
     exchange_rate := VNum 0;
     quantity := VNum 1 |}.

Definition negativeRateCoffin : coffinRow :=
  {| exact_price := VStr "13000.00";
     coffin_currency := VStr "KES";
     price_usd := VNull;
     exchange_rate := VNum (-130);
     quantity := VNum 1 |}.

(** The same coffin with the rate zero held as text, the way the driver
    returns a DECIMAL column. *)
Definition textZeroRateCoffin : coffinRow :=
  {| exact_price := VStr "13000.00";
     coffin_currency := VStr "KES";
     price_usd := VNull;
     exchange_rate := VStr "0.00";
     quantity := VNum 1 |}.

(** Extra charges of case A: one whose amount is not a number, one whose
    amount is missing, one whose amount is 0. *)
Definition malformedCharge : ExtraCharge.row :=
  {| ExtraCharge.deceased_id := VStr "A";
     ExtraCharge.amount := VStr "abc";
     ExtraCharge.status := VStr "Pending" |}.

Definition missingCharge : ExtraCharge.row :=
  {| ExtraCharge.deceased_id := VStr "A";
     ExtraCharge.amount := VNull;
     ExtraCharge.status := VStr "Pending" |}.

Definition zeroCharge : ExtraCharge.row :=
  {| ExtraCharge.deceased_id := VStr "A";
     ExtraCharge.amount := VNum 0;
     ExtraCharge.status := VStr "Pending" |}.

Definition missingPayment : Payment.row :=
  {| Payment.deceased_id := VStr "A"; Payment.amount := VStr "" |}.

Definition zeroPayment : Payment.row :=
  {| Payment.deceased_id := VStr "A"; Payment.amount := VNum 0 |}.

(** Case A with the charge whose amount is not a number. *)
Definition malformedTables : database :=
  tables [caseA] [] [] [malformedCharge] [].

(** The case with the row id 1, registered under a name whose first word
    is "1": [generateUniqueDeceasedId] gives it a case id that starts with
    "1-", which MySQL reads as the number 1.  It is never reconciled, and
    its only extra charge, of 500, is cancelled. *)
Definition case1 : Deceased.row :=
  {| Deceased.id := VNum 1;
     Deceased.deceased_id := VStr "1-LQU5M2O0-9F3K2A";
     Deceased.rate_category := VStr "standard";
     Deceased.created_at := Some (Some T0);
     Deceased.date_admitted := Some (Some T0);
     Deceased.last_charge_update := None;
     Deceased.total_mortuary_charge := VNull;
     Deceased.currency := VStr "KES";
     Deceased.usd_charge_rate := VNull;
     Deceased.embalming_cost := VNull;
     Deceased.status := VNull;
     Deceased.balance := VNull |}.

Definition cancelledCharge : ExtraCharge.row :=
  {| ExtraCharge.deceased_id := VStr "1-LQU5M2O0-9F3K2A";
     ExtraCharge.amount := VStr "500.00";
     ExtraCharge.status := VStr "Cancelled" |}.

Definition cancelledTables : database :=
  tables [case1] [] [] [cancelledCharge] [].

(** The case with the row id 5 registered under the name John: its case
    id starts with letters, which MySQL reads as the number 0.  It has a
    cancelled charge of 500 and a pending charge of 700. *)
Definition case5 : Deceased.row :=
  {| Deceased.id := VNum 5;
     Deceased.deceased_id := VStr "JOH-LQU5M2O0-9F3K2A";
     Deceased.rate_category := VStr "standard";
     Deceased.created_at := Some (Some T0);
     Deceased.date_admitted := Some (Some T0);
     Deceased.last_charge_update := None;
     Deceased.total_mortuary_charge := VNull;
     Deceased.currency := VStr "KES";
     Deceased.usd_charge_rate := VNull;
     Deceased.embalming_cost := VNull;
     Deceased.status := VNull;
     Deceased.balance := VNull |}.

Definition tablesOfCase5 : database :=
  tables [case5] [] []
    [{| ExtraCharge.deceased_id := VStr "JOH-LQU5M2O0-9F3K2A";
        ExtraCharge.amount := VStr "500.00";
        ExtraCharge.status := VStr "Cancelled" |};
     {| ExtraCharge.deceased_id := VStr "JOH-LQU5M2O0-9F3K2A";
        ExtraCharge.amount := VStr "700.00";
        ExtraCharge.status := VStr "Pending" |}]
    [].

(** The scenario of section 8 of the specification: case A with a payment
    of 2000 recorded, and the row of A as a pass two days after admission
    leaves it. *)
Definition paidCase : world :=
  start (tables [caseA] [] [] []
           [{| Payment.deceased_id := VStr "A";
               Payment.amount := VStr "2000.00" |}]).

Definition reconciledA : Deceased.row :=
  {| Deceased.id := VStr "A";
     Deceased.deceased_id := VStr "A";
     Deceased.rate_category := VStr "standard";
     Deceased.created_at := Some (Some T0);
     Deceased.date_admitted := Some (Some T0);
     Deceased.last_charge_update := Some (Some (T0 + 2 * day));
     Deceased.total_mortuary_charge := VNum 6000;
     Deceased.currency := VStr "KES";
     Deceased.usd_charge_rate := VNull;
     Deceased.embalming_cost := VNull;
     Deceased.status := VNull;
     Deceased.balance := VNum 4000 |}.

End Scenario.

(** ** What a pass leaves alone *)

Module Untouched.
Import Js JsDate Db Host Charges.

(** The columns of a deceased row that the UPDATE of the pass does not
    name. *)
Definition same_case (r r' : Deceased.row) : Prop :=
  Deceased.id r' = Deceased.id r
  /\ Deceased.deceased_id r' = Deceased.deceased_id r
  /\ Deceased.rate_category r' = Deceased.rate_category r
  /\ Deceased.created_at r' = Deceased.created_at r
  /\ Deceased.date_admitted r' = Deceased.date_admitted r
  /\ Deceased.currency r' = Deceased.currency r
  /\ Deceased.usd_charge_rate r' = Deceased.usd_charge_rate r
  /\ Deceased.embalming_cost r' = Deceased.embalming_cost r
  /\ Deceased.status r' = Deceased.status r.

(** An entry that the pass may add to the charge history. *)
Definition storage_entry (e : ChargeHistory.row) : Prop :=
  ChargeHistory.charge_type e = "daily_storage"
  /\ significant (ChargeHistory.amount e) = true.

(** A case that is complete. *)
Definition completedB : Deceased.row :=
  {| Deceased.id := VStr "B";
     Deceased.deceased_id := VStr "B";
     Deceased.rate_category := VStr "standard";
     Deceased.created_at := Some (Some Scenario.T0);
     Deceased.date_admitted := Some (Some Scenario.T0);
     Deceased.last_charge_update := None;
     Deceased.total_mortuary_charge := VNum 9000;
     Deceased.currency := VStr "KES";
     Deceased.usd_charge_rate := VNull;
     Deceased.embalming_cost := VNull;
     Deceased.status := VStr "Complete";
     Deceased.balance := VNum 9000 |}.

Definition openAndCompleted : world :=
  Scenario.start (Scenario.tables [Scenario.caseA; completedB] [] [] [] []).

(** Case A reconciled at the very time the clock of [Scenario.calm]
    shows. *)
Definition upToDateA : Deceased.row :=
  {| Deceased.id := VStr "A";
     Deceased.deceased_id := VStr "A";
     Deceased.rate_category := VStr "standard";
     Deceased.created_at := Some (Some Scenario.T0);
     Deceased.date_admitted := Some (Some Scenario.T0);
     Deceased.last_charge_update :=
       Some (Some (Scenario.T0 + 2 * Scenario.day));
     Deceased.total_mortuary_charge := VNum 6000;
     Deceased.currency := VStr "KES";
     Deceased.usd_charge_rate := VNull;
     Deceased.embalming_cost := VNull;
     Deceased.status := VNull;
     Deceased.balance := VNum 6000 |}.

(** A host on which the deceased list cannot be read. *)
Definition listOfDeceased (q : query) : bool :=
  match q with
  | SelectDeceased => true
  | _ => false
  end.

Definition list_fails : host :=
  Scenario.at_time (Scenario.T0 + 2 * Scenario.day) listOfDeceased.

(** A coffin of 13000 KES issued with the quantity [quantity]. *)
Definition issuedCoffin (quantity : value) : coffinRow :=
  {| exact_price := VStr "13000.00";
     coffin_currency := VStr "KES";
     price_usd := VNull;
     exchange_rate := VNull;
     quantity := quantity |}.

End Untouched.

(** ** services/backgroundTasks: the scheduled pass *)

Module BackgroundTasks.
Import Js JsDate Db Host Charges.

(** [logMainServerError(err, context)]: a line on the console. *)
Record consoleError : Type := {
  context : string;
  err : error
}.

(** [io.emit('system_error', { message, details: err.message })] *)
Record systemError : Type := {
  message : string;
  details : error
}.

(** The process: the world of the pass, the console, and what went out on
    the socket. *)
Record server : Type := {
  world_of : world;
  console : list consoleError;
  socket : list systemError
}.

Definition logMainServerError (e : error) (context : string) (s : server)
  : server :=
  {| world_of := world_of s;
     console := console s ++ [{| context := context; err := e |}];
     socket := socket s |}.

Definition emit (e : systemError) (s : server) : server :=
  {| world_of := world_of s;
     console := console s;
     socket := socket s ++ [e] |}.

Definition pass (h : host) (s : server) : outcome unit * server :=
  (fst (updateMortuaryCharges h (world_of s)),
   {| world_of := snd (updateMortuaryCharges h (world_of s));
      console := console s;
      socket := socket s |}).

(** The callback of [cron.schedule('*/5 * * * *', ...)]; [io] says whether
    the socket server was passed to [initBackgroundTasks]. *)
Definition chargesCron (h : host) (io : bool) (s : server)
  : outcome unit * server :=
  match pass h s with
  | (Ok _, s') => (Ok tt, s')
  | (Throw e, s') =>
      let s1 := logMainServerError e "Mortuary charge cron failed" s' in
      (Ok tt,
       if io
       then emit {| message := "Mortuary charge update failed";
                    details := e |} s1
       else s1)
  end.

(** The callback of [setTimeout(..., 15 * 60 * 1000)]. *)
Definition initialCharges (h : host) (s : server) : outcome unit * server :=
  match pass h s with
  | (Ok _, s') => (Ok tt, s')
  | (Throw e, s') =>
      (Ok tt, logMainServerError e "Initial mortuary charge update failed" s')
  end.

(** A host on which the timestamp of the pass cannot be built. *)
Definition no_timestamp : host :=
  {| clock := fun _ => Scenario.T0;
     kenyan := fun _ => None;
     fails := fun _ _ => false |}.

Definition boot (w : world) : server :=
  {| world_of := w; console := []; socket := [] |}.

End BackgroundTasks.

(** ** controllers/invoice: details and system invoices *)

Module Invoice.
Import JsNumber Js JsDate Db.

(** [a + b]: a concatenation as soon as one side is a string, the sum of
    the two numbers otherwise. *)
Definition plus (a b : value) : value :=
  match a, b with
  | VStr s, _ => VStr (s ++ ToString b)
  | _, VStr s => VStr (ToString a ++ s)
  | _, _ => VNum (ToNumber a + ToNumber b)
  end.

(** [a - b] *)
Definition minus (a b : value) : float := (ToNumber a - ToNumber b)%float.

(** [a > b] where [b] is a number. *)
Definition gt (a : value) (b : float) : bool := (b <? ToNumber a)%float.

(** *** getDeceasedFinancialDetails *)

(** The [totals] of the response. *)
Record totals : Type := {
  mortuary_charges : value;
  extra_charges : float;
  total_charges : value;
  total_payments : float;
  balance : float
}.

(** The totals that [getDeceasedFinancialDetails] computes from the rows
    of its three queries: the deceased, the payments and the extra
    charges, in the order in which the queries return them. *)
Definition financialSummary (deceased : Deceased.row)
  (payments : list Payment.row) (extraCharges : list ExtraCharge.row)
  : totals :=
  let totalPayments :=
    fold_left (fun sum payment =>
                 (sum + parseFloat (Payment.amount payment))%float)
              payments 0%float in
  let totalExtraCharges :=
    fold_left (fun sum charge =>
                 (sum + parseFloat (ExtraCharge.amount charge))%float)
              extraCharges 0%float in
  let totalCharges :=
    plus (or (Deceased.total_mortuary_charge deceased) (VNum 0))
         (VNum totalExtraCharges) in
  let balance := minus totalCharges (VNum totalPayments) in
  {| mortuary_charges :=
       or (Deceased.total_mortuary_charge deceased) (VNum 0);
     extra_charges := totalExtraCharges;
     total_charges := totalCharges;
     total_payments := totalPayments;
     balance := balance |}.

(** *** createSystemInvoice *)

(** A row of [SELECT * FROM extra_charges]: the columns that the pass
    reads, and the two that go into an invoice line. *)
Record chargeRow : Type := {
  columns : ExtraCharge.row;
  charge_type : value;
  charge_description : value
}.

(** A line of an invoice; the lines of the deceased have no
    description. *)
Record item : Type := {
  service : value;
  qty : float;
  amount : float;
  description : option value
}.

Definition chargeItem (charge : chargeRow) : item :=
  {| service := charge_type charge;
     qty := 1;
     amount := parseFloat (ExtraCharge.amount (columns charge));
     description := Some (charge_description charge) |}.

Definition fixedItem (name : string) (amount : float) : item :=
  {| service := VStr name; qty := 1; amount := amount;
     description := None |}.

(** [systemItems] and [systemTotal] as [createSystemInvoice] builds them
    from the deceased and the extra charges that it selected. *)
Definition systemInvoice (mortuary_charge embalming_cost : value)
  (extraCharges : list chargeRow) : list item * float :=
  let systemItems : list item := [] in
  let systemTotal := 0%float in
  let '(systemItems, systemTotal) :=
    if truthy mortuary_charge && gt mortuary_charge 0
    then ((systemItems
             ++ [fixedItem "Basic Mortuary Services"
                           (parseFloat mortuary_charge)])%list,
          (systemTotal + parseFloat mortuary_charge)%float)
    else (systemItems, systemTotal) in
  let '(systemItems, systemTotal) :=
    if truthy embalming_cost && gt embalming_cost 0
    then ((systemItems
             ++ [fixedItem "Embalming Services"
                           (parseFloat embalming_cost)])%list,
          (systemTotal + parseFloat embalming_cost)%float)
    else (systemItems, systemTotal) in
  let '(systemItems, systemTotal) :=
    fold_left
      (fun '(items, total) charge =>
         ((items ++ [chargeItem charge])%list,
          (total + parseFloat (ExtraCharge.amount (columns charge)))%float))
      extraCharges (systemItems, systemTotal) in
  if (List.length systemItems =? 0)%nat
  then ([fixedItem "Mortuary Services" 15000;
         fixedItem "Basic Care and Maintenance" 5000],
        20000%float)
  else (systemItems, systemTotal).

(** The amounts of the lines of an invoice, added in the order of the
    lines. *)
Definition sumOfLines (items : list item) : float :=
  fold_left (fun acc i => (acc + amount i)%float) items 0%float.

(** [SELECT * FROM extra_charges WHERE deceased_id = ? AND
    status != "Paid"] *)
Definition selectUnpaid (t : database) (deceased_id : value)
  : list ExtraCharge.row :=
  filter (fun e => sql_eq (ExtraCharge.deceased_id e) deceased_id
                   && sql_neq (ExtraCharge.status e) (VStr "Paid"))
         (Db.extra_charges t).

(** [UPDATE extra_charges SET status = "Invoiced" WHERE deceased_id = ?
    AND status = "Pending"] *)
Definition markInvoiced (deceased_id : value) (t : database) : database :=
  Charges.withExtraCharges
    (map (fun e =>
            if sql_eq (ExtraCharge.deceased_id e) deceased_id
               && sql_eq (ExtraCharge.status e) (VStr "Pending")
            then {| ExtraCharge.deceased_id := ExtraCharge.deceased_id e;
                    ExtraCharge.amount := ExtraCharge.amount e;
                    ExtraCharge.status := VStr "Invoiced" |}
            else e)
         (Db.extra_charges t))
    t.

(** What a system invoice for the deceased [deceased] does to the extra
    charges: the statuses are updated when the selection was not empty. *)
Definition invoiceCharges (deceased : Deceased.row) (t : database)
  : database :=
  if (0 <? List.length (selectUnpaid t (Deceased.deceased_id deceased)))%nat
  then markInvoiced (Deceased.deceased_id deceased) t
  else t.

(** A status column holds text or NULL. *)
Definition textual (v : value) : bool :=
  match v with
  | VNum _ => false
  | _ => true
  end.

(** The financial summary query on a database that holds one more
    payment. *)
Definition withPayment (p : Payment.row) (t : database) : database :=
  {| deceased := deceased t;
     charge_history := charge_history t;
     coffin_issue := coffin_issue t;
     coffins := coffins t;
     Db.extra_charges := Db.extra_charges t;
     payments := p :: payments t |}.

(** Case A as a pass left it two days after admission, with the total as
    the driver returns a DECIMAL column, and a pending charge of 500. *)
Definition storedAsText : Deceased.row :=
  {| Deceased.id := VStr "A";
     Deceased.deceased_id := VStr "A";
     Deceased.rate_category := VStr "standard";
     Deceased.created_at := Some (Some Scenario.T0);
     Deceased.date_admitted := Some (Some Scenario.T0);
     Deceased.last_charge_update :=
       Some (Some (Scenario.T0 + 2 * Scenario.day));
     Deceased.total_mortuary_charge := VStr "6000.00";
     Deceased.currency := VStr "KES";
     Deceased.usd_charge_rate := VNull;
     Deceased.embalming_cost := VNull;
     Deceased.status := VNull;
     Deceased.balance := VStr "6000.00" |}.

Definition pendingCharge : ExtraCharge.row :=
  {| ExtraCharge.deceased_id := VStr "A";
     ExtraCharge.amount := VStr "500.00";
     ExtraCharge.status := VStr "Pending" |}.

Definition pendingTables : database :=
  Scenario.tables [Scenario.caseA] [] [] [pendingCharge] [].

(** The case with the row id 1, whose case id MySQL reads as the number 1,
    with a pending charge of 500 filed under its case id: the join of the
    financial summary on the row id and the selection of the pass on the
    case id find the same charge. *)
Definition chargeOfCase1 : ExtraCharge.row :=
  {| ExtraCharge.deceased_id := Deceased.deceased_id Scenario.case1;
     ExtraCharge.amount := VStr "500.00";
     ExtraCharge.status := VStr "Pending" |}.

Definition tablesOfCase1 : database :=
  Scenario.tables [Scenario.case1] [] [] [chargeOfCase1] [].

End Invoice.

(** ** The builtins on known values *)

Module BuiltinExamples.
Import JsNumber Js Db.

Example toString_examples :
  map toString [0.1; 195; 1e21; 5e-7; 123.456; (-2.5); 1e23]%float
  = ["0.1"; "195"; "1e+21"; "5e-7"; "123.456"; "-2.5"; "1e+23"].
Proof. vm_compute. reflexivity. Qed.

Example toFixed_examples :
  map (toFixed 4) [1.5; 0; 2; (-0.00001); 0.00005; nan]%float
  = ["1.5000"; "0.0000"; "2.0000"; "-0.0000"; "0.0001"; "NaN"]
  /\ map (toFixed 2) [1.005; 123.456; 8.345; 6000]%float
     = ["1.00"; "123.46"; "8.35"; "6000.00"].
Proof. vm_compute. split; reflexivity. Qed.

Example parseFloat_examples :
  map parseFloat
      [VNum 130; VStr "500.00"; VStr " 12.50abc"; VStr ".5"; VStr "-.5e1";
       VStr "1e"; VStr "1."; VStr "-0"]
  = [130; 500; 12.5; 0.5; -5; 1; 1; -0]%float
  /\ map (fun v => isNaN (parseFloat v))
         [VStr "abc"; VNull; VStr ""; VStr "."; VNum nan]
     = [true; true; true; true; true].
Proof. vm_compute. split; reflexivity. Qed.

Example parseInt_examples :
  map parseInt
      [VNum 1; VNum 2.7; VStr "42px"; VStr "0x1f"; VStr " -12.9"; VNum 1e21]
  = [1; 2; 42; 31; -12; 1]%float.
Proof. vm_compute. reflexivity. Qed.

Example ToNumber_examples :
  map ToNumber
      [VNull; VStr ""; VStr " 12 "; VStr "0x1F"; VStr "0.00"; VStr "-5";
       VStr "1e3"]
  = [0; 0; 12; 31; 0; -5; 1000]%float
  /\ map (fun v => isNaN (ToNumber v)) [VStr "12px"; VStr "1e"; VStr "0x"]
     = [true; true; true].
Proof. vm_compute. split; reflexivity. Qed.

Example truthy_examples :
  map truthy [VNull; VNum 0; VNum nan; VStr ""; VStr "0.00"; VNum 130]
  = [false; false; false; false; true; true].
Proof. reflexivity. Qed.

Example sql_eq_examples :
  map (fun p => sql_eq (fst p) (snd p))
      [(VStr "Cancelled", VStr "cancelled"); (VNum 1, VStr "1");
       (VStr "A", VStr "B"); (VNull, VNull); (VNum 0, VStr "abc")]
  = [true; true; false; false; true].
Proof. vm_compute. reflexivity. Qed.

End BuiltinExamples.

(** ** Facts on doubles

    The sign of a rounded result, read off the specification of the
    primitive operations ([SpecFloat]). *)

Module FloatFacts.
Import JsNumber Sign.

Lemma shr_1_nonneg (mrs : shr_record) :
  0 <= shr_m mrs -> 0 <= shr_m (shr_1 mrs).
Proof.
  destruct mrs as [m r s]; simpl.
  destruct m as [|[p|p|]|[p|p|]]; simpl; lia.
Qed.

Lemma iter_pos_shr_1_nonneg (p : positive) :
  forall mrs, 0 <= shr_m mrs -> 0 <= shr_m (iter_pos shr_1 p mrs).
Proof.
  induction p as [p IH|p IH|]; intros mrs H; simpl.
  - apply IH, IH, shr_1_nonneg, H.
  - apply IH, IH, H.
  - apply shr_1_nonneg, H.
Qed.

Lemma shr_nonneg (mrs : shr_record) (e n : Z) :
  0 <= shr_m mrs -> 0 <= shr_m (fst (shr mrs e n)).
Proof.
  intros H. destruct n; simpl; trivial.
  apply iter_pos_shr_1_nonneg, H.
Qed.

Lemma shr_record_of_loc_m (m : Z) (l : location) :
  shr_m (shr_record_of_loc m l) = m.
Proof. destruct l as [|[| |]]; reflexivity. Qed.

Lemma shr_fexp_nonneg (m e : Z) (l : location) :
  0 <= m -> 0 <= shr_m (fst (shr_fexp prec emax m e l)).
Proof.
  intros H. unfold shr_fexp. apply shr_nonneg.
  rewrite shr_record_of_loc_m. exact H.
Qed.

Lemma round_nearest_even_nonneg (m : Z) (l : location) :
  0 <= m -> 0 <= round_nearest_even m l.
Proof.
  intros H. destruct l as [|[| |]]; simpl; try lia.
  destruct (Z.even m); lia.
Qed.

(** Rounding keeps the sign it is given and never yields NaN. *)
Lemma binary_round_aux_sign (s : bool) (m e : Z) (l : location) :
  0 <= m -> has_sign s (binary_round_aux prec emax s m e l).
Proof.
  intros H. unfold binary_round_aux.
  pose proof (shr_fexp_nonneg m e l H) as H1.
  destruct (shr_fexp prec emax m e l) as [mrs' e'] eqn:E1.
  simpl in H1.
  pose proof (shr_fexp_nonneg
                (round_nearest_even (shr_m mrs') (loc_of_shr_record mrs'))
                e' loc_Exact
                (round_nearest_even_nonneg _ _ H1)) as H2.
  destruct (shr_fexp prec emax
              (round_nearest_even (shr_m mrs') (loc_of_shr_record mrs'))
              e' loc_Exact) as [mrs'' e''] eqn:E2.
  simpl in H2.
  destruct (shr_m mrs'') as [|p|p]; simpl.
  - reflexivity.
  - destruct (_ <=? _); simpl; reflexivity.
  - lia.
Qed.

Lemma binary_round_sign (s : bool) (m : positive) (e : Z) :
  has_sign s (binary_round prec emax s m e).
Proof.
  unfold binary_round.
  destruct (shl_align m e (fexp prec emax (Z.pos (digits2_pos m) + e)))
    as [mz ez].
  apply binary_round_aux_sign. lia.
Qed.

Lemma binary_normalize_nonneg (m e : Z) :
  0 <= m -> has_sign false (binary_normalize prec emax m e false).
Proof.
  intros H. destruct m as [|p|p]; simpl.
  - reflexivity.
  - apply binary_round_sign.
  - lia.
Qed.

Lemma of_uint63_sign (n : int) : has_sign false (Prim2SF (of_uint63 n)).
Proof.
  rewrite FloatAxioms.of_uint63_spec. apply binary_normalize_nonneg.
  apply Uint63.to_Z_bounded.
Qed.

Lemma has_sign_opp (s : bool) (x : spec_float) :
  has_sign s x -> has_sign (negb s) (SFopp x).
Proof. destruct x; simpl; intros H; subst; trivial. Qed.

(** An integer that is not positive converts to a double that is not
    positive, and likewise for not negative. *)
Lemma of_Z_not_positive (z : Z) :
  z <= 0 -> not_positive (Prim2SF (of_Z z)).
Proof.
  intros H. destruct z as [|p|p]; simpl.
  - exact I.
  - lia.
  - rewrite FloatAxioms.opp_spec.
    pose proof (has_sign_opp _ _ (of_uint63_sign (Uint63.of_Z (Z.pos p)))) as S.
    destruct (SFopp _); simpl in *; trivial.
Qed.

Lemma of_Z_has_sign (z : Z) :
  0 <= z -> has_sign false (Prim2SF (of_Z z)).
Proof.
  intros H. destruct z as [|p|p]; simpl.
  - reflexivity.
  - apply of_uint63_sign.
  - lia.
Qed.

Lemma div_core_nonneg (m1 : positive) (e1 : Z) (m2 : positive) (e2 : Z) :
  0 <= fst (fst (SFdiv_core_binary prec emax (Z.pos m1) e1 (Z.pos m2) e2)).
Proof.
  unfold SFdiv_core_binary.
  set (s := _ - _ - Z.min _ _).
  set (m' := match s with
             | 0 => Z.pos m1
             | Z.pos _ => Z.shiftl (Z.pos m1) s
             | Z.neg _ => 0
             end).
  assert (Hm : 0 <= m').
  { unfold m'. destruct s; try lia. apply Z.shiftl_nonneg. lia. }
  pose proof (Z_div_mod m' (Z.pos m2) eq_refl) as D.
  destruct (Z.div_eucl m' (Z.pos m2)) as [q r]. simpl.
  destruct D as [D1 D2]. nia.
Qed.

(** Dividing by a positive finite double keeps the sign. *)
Lemma div_not_positive (x : spec_float) (my : positive) (ey : Z) :
  not_positive x ->
  not_positive (SFdiv prec emax x (S754_finite false my ey)).
Proof.
  destruct x as [s|s| |s mx ex]; simpl; trivial.
  - intros ->. reflexivity.
  - intros ->.
    pose proof (div_core_nonneg mx ex my ey) as Q.
    destruct (SFdiv_core_binary prec emax (Z.pos mx) ex (Z.pos my) ey)
      as [[mz ez] lz].
    simpl in Q.
    pose proof (binary_round_aux_sign true mz ez lz Q) as S.
    simpl. destruct (binary_round_aux _ _ _ _ _ _); simpl in *; trivial.
Qed.

Lemma not_positive_ltb (x : float) :
  not_positive (Prim2SF x) -> (0 <? x)%float = false.
Proof.
  rewrite FloatAxioms.ltb_spec. change (Prim2SF 0) with (S754_zero false).
  destruct (Prim2SF x) as [s|s| |s m e]; try destruct s; simpl;
    intros; trivial; try discriminate; try reflexivity.
Qed.

Lemma not_negative_ltb (x : float) :
  not_negative (Prim2SF x) -> (x <? 0)%float = false.
Proof.
  rewrite FloatAxioms.ltb_spec. change (Prim2SF 0) with (S754_zero false).
  destruct (Prim2SF x) as [s|s| |s m e]; try destruct s; simpl;
    intros; trivial; try discriminate; try reflexivity.
Qed.

Lemma ltb_not_negative (x : float) :
  (x <? 0)%float = false -> not_negative (Prim2SF x).
Proof.
  rewrite FloatAxioms.ltb_spec. change (Prim2SF 0) with (S754_zero false).
  destruct (Prim2SF x) as [s|s| |s m e]; try destruct s; simpl;
    intros; trivial; try discriminate; try reflexivity.
Qed.

Lemma ltb_leb_zero (x : float) :
  (0 <? x)%float = true -> (0 <=? x)%float = true.
Proof.
  rewrite FloatAxioms.ltb_spec, FloatAxioms.leb_spec. unfold SFltb, SFleb.
  destruct (SFcompare (Prim2SF 0) (Prim2SF x)) as [[| |]|];
    trivial; discriminate.
Qed.

Lemma ltb_zero_has_sign (x : float) :
  (0 <? x)%float = true -> has_sign false (Prim2SF x).
Proof.
  rewrite FloatAxioms.ltb_spec. change (Prim2SF 0) with (S754_zero false).
  destruct (Prim2SF x) as [s|s| |s m e]; try destruct s; simpl;
    intros; trivial; try discriminate; try reflexivity.
Qed.

(** The product of two doubles that are not negative is not negative. *)
Lemma mul_not_negative (x y : spec_float) :
  has_sign false x -> not_negative y ->
  not_negative (SFmul prec emax x y).
Proof.
  destruct x as [sx|sx| |sx mx ex]; simpl; try contradiction;
    intros ->; destruct y as [sy|sy| |sy my ey]; simpl; trivial;
    try (intros ->; reflexivity).
  intros ->.
  pose proof (binary_round_aux_sign false (Z.pos (mx * my)) (ex + ey)
                loc_Exact ltac:(lia)) as S.
  simpl. destruct (binary_round_aux _ _ _ _ _ _); simpl in *; trivial.
Qed.

End FloatFacts.

(** ** Facts on the charge calculation *)

Module ChargesFacts.
Import JsNumber Js JsDate Db Host Charges.

(** Runs the body of the loop symbolically: every [safeQuery] splits on
    whether the host rejects it. *)
Ltac run_case :=
  unfold processCase, bind, when, saveChargeHistory, safeQuery, Date_now,
    ret;
  simpl;
  repeat match goal with
         | |- context [if ?b then _ else _] => destruct b eqn:?; simpl
         end.

#[local] Arguments significant : simpl never.
#[local] Arguments getFractionalDays : simpl never.
#[local] Arguments baseRate : simpl never.
#[local] Arguments lastUpdate : simpl never.
#[local] Arguments admissionDate : simpl never.
#[local] Arguments TimeClip : simpl never.
#[local] Arguments toFixed : simpl never.

(** *** The history entry *)

(** The history table after a case: one entry more when the incremental
    charge is significant and the insert is not rejected. *)
Lemma processCase_charge_history h now d w :
  charge_history (db (snd (processCase h now d w)))
  = (charge_history (db w)
     ++ (if significant (incrementalCharge d (clock h (S (ticks w))))
            && negb (fails h (issued w)
                       (InsertChargeHistory (Deceased.deceased_id d)))
         then [historyEntry d (clock h (S (ticks w)))] else []))%list.
Proof.
  unfold incrementalCharge, incrementalDays, historyEntry.
  run_case; rewrite ?app_nil_r; reflexivity.
Qed.

(** A rejected insert ends the case. *)
Lemma processCase_insert_rejected h now d w :
  significant (incrementalCharge d (clock h (S (ticks w)))) = true ->
  fails h (issued w) (InsertChargeHistory (Deceased.deceased_id d)) = true ->
  fst (processCase h now d w)
  = Throw (QueryFailed (InsertChargeHistory (Deceased.deceased_id d))).
Proof.
  unfold incrementalCharge, incrementalDays.
  intros Hs Hf. run_case; congruence.
Qed.

(** C6. A case adds an entry of type [daily_storage] to the charge
    history exactly when its incremental storage charge exceeds 0.01 (and
    the database takes the insert): the history after the case is the
    history before it with that one entry, or with nothing, at its end.
    An incremental charge of 0.001 is not logged, one of 50 is.  The amount
    of the entry is the incremental charge and its description gives the
    fractional day count to four decimals. *)
Theorem history_entry_iff_significant :
  (forall (h : host) (now : Date) (d : Deceased.row) (w : world),
      let t := clock h (S (ticks w)) in
      charge_history (db (snd (processCase h now d w)))
      = (charge_history (db w)
         ++ (if significant (incrementalCharge d t)
                && negb (fails h (issued w)
                           (InsertChargeHistory (Deceased.deceased_id d)))
             then [historyEntry d t] else []))%list)
  /\ significant 0.001 = false
  /\ significant 50 = true
  /\ (forall d t,
         ChargeHistory.charge_type (historyEntry d t) = "daily_storage"
         /\ ChargeHistory.amount (historyEntry d t) = incrementalCharge d t
         /\ ChargeHistory.description (historyEntry d t)
            = "Daily mortuary charge (" ++ toFixed 4 (incrementalDays d t)
              ++ " days)").
Proof.
  split; [|split; [|split]].
  - intros h now d w t. apply processCase_charge_history.
  - reflexivity.
  - reflexivity.
  - intros d t. repeat split.
Qed.

(** *** What one case does to the tables *)

Lemma updateRow_deceased_id id total now balance r :
  Deceased.deceased_id (updateRow id total now balance r)
  = Deceased.deceased_id r.
Proof. unfold updateRow. destruct (sql_eq _ _); reflexivity. Qed.

Lemma same_sources_refl t : same_sources t t.
Proof. repeat split. Qed.

Lemma same_sources_trans t1 t2 t3 :
  same_sources t1 t2 -> same_sources t2 t3 -> same_sources t1 t3.
Proof.
  intros (A1 & A2 & A3 & A4) (B1 & B2 & B3 & B4).
  repeat split; congruence.
Qed.

Lemma processCase_sources h now d w :
  same_sources (db w) (db (snd (processCase h now d w))).
Proof. run_case; repeat split. Qed.

Lemma same_sources_payments t t' id :
  same_sources t t' -> selectPayments t' id = selectPayments t id.
Proof. intros (_ & _ & _ & P). unfold selectPayments. now rewrite P. Qed.

Lemma same_sources_extras t t' id :
  same_sources t t' -> selectExtraCharges t' id = selectExtraCharges t id.
Proof. intros (_ & _ & E & _). unfold selectExtraCharges. now rewrite E. Qed.

Lemma same_sources_coffins t t' id :
  same_sources t t' -> selectCoffins t' id = selectCoffins t id.
Proof. intros (I & C & _ & _). unfold selectCoffins. now rewrite I, C. Qed.

(** A case that completes has rewritten the rows of its [deceased_id] with
    the total and the balance computed from the tables. *)
Lemma processCase_ok h now d w :
  fst (processCase h now d w) = Ok tt ->
  deceased (db (snd (processCase h now d w)))
  = map (updateRow (Deceased.deceased_id d)
           (caseTotal (db w) d (clock h (ticks w))) now
           (caseBalance (db w) d (clock h (ticks w))))
        (deceased (db w)).
Proof. run_case; intros; try discriminate; reflexivity. Qed.

(** A case that fails has not touched the deceased table. *)
Lemma processCase_throw h now d w e :
  fst (processCase h now d w) = Throw e ->
  deceased (db (snd (processCase h now d w))) = deceased (db w).
Proof. run_case; intros; try discriminate; reflexivity. Qed.

(** After a case completes, every row of its [deceased_id] carries the
    total of the case and that total minus its payments. *)
Lemma processCase_balanced
  (h : host) (now : Date) (d : Deceased.row) (w : world) (r : Deceased.row) :
  fst (processCase h now d w) = Ok tt ->
  In r (deceased (db (snd (processCase h now d w)))) ->
  sql_eq (Deceased.deceased_id r) (Deceased.deceased_id d) = true ->
  Spec.balanced (db (snd (processCase h now d w))) (Deceased.deceased_id d) r.
Proof.
  intros Hok Hin Hid.
  rewrite (processCase_ok _ _ _ _ Hok) in Hin.
  apply in_map_iff in Hin. destruct Hin as (r0 & <- & _).
  rewrite updateRow_deceased_id in Hid.
  exists (caseTotal (db w) d (clock h (ticks w))).
  rewrite (same_sources_payments _ _ _ (processCase_sources h now d w)).
  unfold updateRow. rewrite Hid. simpl. split; reflexivity.
Qed.



(** *** The pass *)

Lemma for_of_app {A : Type} (body : A -> M unit) (l1 l2 : list A) :
  forall w,
    for_of (l1 ++ l2) body w
    = match for_of l1 body w with
      | (Ok _, w') => for_of l2 body w'
      | (Throw e, w') => (Throw e, w')
      end.
Proof.
  induction l1 as [|x l1 IH]; intros w; simpl.
  - reflexivity.
  - unfold bind. destruct (body x w) as [[[]|e] w']; auto.
Qed.

(** The pass: the timestamp is taken, then the deceased list is read and
    the loop runs inside the [try]. *)
Lemma updateMortuaryCharges_eq h w :
  updateMortuaryCharges h w
  = match passTime h w with
    | None =>
        (Throw RangeError,
         {| db := db w; ticks := S (ticks w); issued := issued w;
            errorLog := errorLog w |})
    | Some now =>
        if fails h (issued w) SelectDeceased
        then appendErrorLog (QueryFailed SelectDeceased) (loopStart w)
        else match for_of (selectDeceased (db w)) (processCase h now)
                     (loopStart w) with
             | (Ok _, w') => (Ok tt, w')
             | (Throw e, w') => appendErrorLog e w'
             end
    end.
Proof.
  unfold updateMortuaryCharges, getKenyanDateTime, try_catch, bind,
    safeQuery, Date_now, ret, throw, passTime, loopStart.
  simpl. destruct (kenyan h (clock h (ticks w))) as [now|]; simpl.
  - destruct (fails h (issued w) SelectDeceased); simpl.
    + reflexivity.
    + destruct (for_of _ _ _) as [[[]|e] w']; reflexivity.
  - reflexivity.
Qed.

(** Once the timestamp is taken, the pass returns to its caller whatever
    fails inside. *)
Lemma updateMortuaryCharges_returns h w now :
  passTime h w = Some now ->
  fst (updateMortuaryCharges h w) = Ok tt.
Proof.
  intros Hnow. rewrite updateMortuaryCharges_eq, Hnow.
  destruct (fails h (issued w) SelectDeceased); simpl.
  - reflexivity.
  - destruct (for_of _ _ _) as [[[]|e] w']; reflexivity.
Qed.

(** C2, as the program has it. A failure while a case is processed is
    caught around the whole loop: the pass returns to its caller, the error
    goes to the error log, the deceased table stays as the cases before the
    failing one left it, and the cases after it in the list are not
    processed. *)
Theorem failure_ends_the_pass
  (h : host) (w : world) (now : Date) (l1 l2 : list Deceased.row)
  (d : Deceased.row) (w1 w2 : world) (e : error) :
  passTime h w = Some now ->
  fails h (issued w) SelectDeceased = false ->
  selectDeceased (db w) = (l1 ++ d :: l2)%list ->
  for_of l1 (processCase h now) (loopStart w) = (Ok tt, w1) ->
  processCase h now d w1 = (Throw e, w2) ->
  updateMortuaryCharges h w = (Ok tt, snd (appendErrorLog e w2))
  /\ deceased (db (snd (updateMortuaryCharges h w))) = deceased (db w1)
  /\ errorLog (snd (updateMortuaryCharges h w)) = (errorLog w2 ++ [e])%list.
Proof.
  intros Hnow Hsel Hlist Hbefore Hfail.
  assert (E : updateMortuaryCharges h w = (Ok tt, snd (appendErrorLog e w2))).
  { rewrite updateMortuaryCharges_eq, Hnow, Hsel, Hlist, for_of_app,
      Hbefore.
    simpl. unfold bind. rewrite Hfail. reflexivity. }
  rewrite E. repeat split.
  simpl. pose proof (processCase_throw h now d w1 e) as T.
  rewrite Hfail in T. simpl in T. apply T. reflexivity.
Qed.

Lemma failure_ends_the_pass_witness :
  let h := Scenario.paymentsOfA_fail in
  let w := Scenario.twoCases in
  let stopped := snd (processCase h (Some (Scenario.T0 + 2 * Scenario.day))
                        Scenario.caseA (loopStart w)) in
  updateMortuaryCharges h w
  = (Ok tt,
     snd (appendErrorLog (QueryFailed (SelectPayments (VStr "A"))) stopped))
  /\ deceased (db (snd (updateMortuaryCharges h w)))
     = deceased (db (loopStart w))
  /\ errorLog (snd (updateMortuaryCharges h w))
     = (errorLog stopped ++ [QueryFailed (SelectPayments (VStr "A"))])%list.
Proof.
  apply (failure_ends_the_pass Scenario.paymentsOfA_fail Scenario.twoCases
           (Some (Scenario.T0 + 2 * Scenario.day))
           [] [Scenario.caseB] Scenario.caseA);
    vm_compute; reflexivity.
Defined.

(** C2 as the specification has it fails: the database rejects the query
    for the payments of case A, no query of case B is rejected, and B is
    not reconciled. *)
Lemma failure_is_not_isolated :
  ~ Spec.failure_isolated_at Scenario.paymentsOfA_fail Scenario.twoCases.
Proof.
  intros H.
  specialize (H (Some (Scenario.T0 + 2 * Scenario.day)) Scenario.caseB).
  assert (L : Deceased.last_charge_update Scenario.caseB = None)
    by reflexivity.
  rewrite L in H.
  assert (F : None = Some (Some (Scenario.T0 + 2 * Scenario.day))).
  { apply H.
    - reflexivity.
    - vm_compute. right. left. reflexivity.
    - reflexivity.
    - intros n q Hq. simpl in Hq.
      destruct q as [|v|v|v|[|x|s]|v]; try discriminate.
      apply String.eqb_eq in Hq. subst s.
      repeat split; discriminate. }
  discriminate.
Qed.


(** *** The storage charge *)

Lemma parseFloat_130 : parseFloat (VNum 130) = 130%float.
Proof. vm_compute. reflexivity. Qed.

Lemma cur_is_USD (d : Deceased.row) :
  strict_eq (cur d) (VStr "USD")
  = strict_eq (Deceased.currency d) (VStr "USD").
Proof.
  unfold cur, or. destruct (truthy (Deceased.currency d)) eqn:T; trivial.
  destruct (Deceased.currency d) as [|x|s]; trivial.
  simpl in T. destruct s; [reflexivity | discriminate].
Qed.

(** The rate in use: for a USD case the stored rate as [parseFloat] reads
    it, with 130 for a stored value that is falsy; 5000 or 3000
    otherwise. *)
Lemma baseRate_cases (d : Deceased.row) :
  baseRate d
  = if strict_eq (Deceased.currency d) (VStr "USD")
    then if truthy (Deceased.usd_charge_rate d)
         then parseFloat (Deceased.usd_charge_rate d)
         else 130%float
    else if strict_eq (Deceased.rate_category d) (VStr "premium")
         then 5000%float
         else 3000%float.
Proof.
  unfold baseRate. rewrite cur_is_USD.
  destruct (strict_eq (Deceased.currency d) (VStr "USD")); trivial.
  unfold or.
  destruct (truthy (Deceased.usd_charge_rate d));
    [reflexivity | apply parseFloat_130].
Qed.

Lemma TimeClip_in_range (t : Z) :
  Z.abs t <= 8640000000000000 -> TimeClip t = Some t.
Proof.
  intros H. unfold TimeClip.
  destruct (Z.leb_spec (Z.abs t) 8640000000000000); [reflexivity | lia].
Qed.

(** The total that a completed case is written with. *)
Lemma processCase_total
  (h : host) (now : Date) (d : Deceased.row) (w : world) (r : Deceased.row) :
  fst (processCase h now d w) = Ok tt ->
  In r (deceased (db (snd (processCase h now d w)))) ->
  sql_eq (Deceased.deceased_id r) (Deceased.deceased_id d) = true ->
  Deceased.total_mortuary_charge r
  = VNum (getFractionalDays (admissionDate d) (TimeClip (clock h (ticks w)))
          * baseRate d
          + caseCoffinCharges (db w) d + caseExtraCharges (db w) d
          + embalming d)%float.
Proof.
  intros Hok Hin Hid.
  rewrite (processCase_ok _ _ _ _ Hok) in Hin.
  apply in_map_iff in Hin. destruct Hin as (r0 & <- & _).
  rewrite updateRow_deceased_id in Hid.
  unfold updateRow. rewrite Hid. reflexivity.
Qed.

Lemma written_In (d : Deceased.row) (elapsed : Z) (total : float) :
  deceased (db (snd (processCase (Scenario.after elapsed)
                       (Some (Scenario.T0 + elapsed)) d
                       (Scenario.alone d))))
  = [Scenario.written d elapsed total] ->
  In (Scenario.written d elapsed total)
     (deceased (db (snd (processCase (Scenario.after elapsed)
                           (Some (Scenario.T0 + elapsed)) d
                           (Scenario.alone d))))).
Proof. intros ->. left. reflexivity. Qed.

(** C3 as the specification has it fails: a USD case whose stored rate is
    the number 0 is not billed at the rate 0.  The stored 0 counts as no
    rate, the case is billed 130 a day, and 1.5 days after its admission it
    is written with the total 195 where the stored rate gives 0. *)
Lemma zero_usd_rate_is_billed_at_130 :
  ~ Spec.storage_at_daily_rate (Scenario.after 129600000)
      (Some (Scenario.T0 + 129600000)) Scenario.zeroRateCase
      (Scenario.alone Scenario.zeroRateCase).
Proof.
  intros H.
  assert (E : Deceased.total_mortuary_charge
                (Scenario.written Scenario.zeroRateCase 129600000 195)
              = VNum 0).
  { rewrite H.
    - vm_compute. reflexivity.
    - vm_compute. reflexivity.
    - apply written_In. vm_compute. reflexivity.
    - vm_compute. reflexivity. }
  apply (f_equal (fun v => match v with
                           | VNum x => (x =? 195)%float
                           | _ => false
                           end)) in E.
  vm_compute in E. discriminate.
Qed.

(** C3, as the program has it. The total that a case is written with is
    the fractional days since its admission times the rate in use, plus its
    coffin charges, extra charges and embalming cost.  The rate in use is
    5000 for the premium category and 3000 for any other; for a USD case it
    is the stored [usd_charge_rate] as [parseFloat] reads it, and 130 when
    the stored value is NULL, the empty string or the number 0.  A USD case
    at 130 a day, read 1.5 days after admission, with no coffin, extra
    charge or embalming cost, is written with the total 195. *)
Theorem storage_charge_is_days_times_rate :
  (forall (h : host) (now : Date) (d : Deceased.row) (w : world)
          (r : Deceased.row),
      fst (processCase h now d w) = Ok tt ->
      In r (deceased (db (snd (processCase h now d w)))) ->
      sql_eq (Deceased.deceased_id r) (Deceased.deceased_id d) = true ->
      Deceased.total_mortuary_charge r
      = VNum (getFractionalDays (admissionDate d)
                                (TimeClip (clock h (ticks w)))
              * (if strict_eq (Deceased.currency d) (VStr "USD")
                 then if truthy (Deceased.usd_charge_rate d)
                      then parseFloat (Deceased.usd_charge_rate d)
                      else 130
                 else if strict_eq (Deceased.rate_category d)
                                   (VStr "premium")
                      then 5000
                      else 3000)
              + caseCoffinCharges (db w) d + caseExtraCharges (db w) d
              + embalming d)%float)
  /\ (forall (h : host) (now : Date) (d : Deceased.row) (w : world)
             (r : Deceased.row) (t0 : Z),
         fst (processCase h now d w) = Ok tt ->
         In r (deceased (db (snd (processCase h now d w)))) ->
         sql_eq (Deceased.deceased_id r) (Deceased.deceased_id d) = true ->
         Z.abs t0 <= 8640000000000000 - 129600000 ->
         Deceased.date_admitted d = Some (Some t0) ->
         clock h (ticks w) = t0 + 129600000 ->
         Deceased.currency d = VStr "USD" ->
         Deceased.usd_charge_rate d = VNum 130
         \/ truthy (Deceased.usd_charge_rate d) = false ->
         selectCoffins (db w) (Deceased.deceased_id d) = [] ->
         selectExtraCharges (db w) (Deceased.deceased_id d) = [] ->
         Deceased.embalming_cost d = VNull ->
         Deceased.total_mortuary_charge r = VNum 195).
Proof.
  split.
  - intros h now d w r Hok Hin Hid.
    rewrite (processCase_total h now d w r Hok Hin Hid), baseRate_cases.
    reflexivity.
  - intros h now d w r t0 Hok Hin Hid Hrange Hadm Hclock Hcur Hrate
           Hcoffin Hextra Hemb.
    rewrite (processCase_total h now d w r Hok Hin Hid), baseRate_cases.
    unfold caseCoffinCharges, caseExtraCharges, embalming.
    rewrite Hcoffin, Hextra, Hemb, Hclock, Hcur.
    unfold admissionDate. rewrite Hadm. simpl Date_of.
    unfold getFractionalDays, minus, new_Date.
    rewrite !(TimeClip_in_range t0) by lia.
    rewrite !(TimeClip_in_range (t0 + 129600000)) by lia.
    replace (t0 + 129600000 - t0) with 129600000 by lia.
    destruct Hrate as [->| ->]; vm_compute; reflexivity.
Qed.

Lemma storage_charge_is_days_times_rate_witness :
  Deceased.total_mortuary_charge
    (Scenario.written Scenario.usdCase 129600000 195)
  = VNum 195
  /\ In (Scenario.written Scenario.usdCase 129600000 195)
        (deceased (db (snd (processCase (Scenario.after 129600000)
                              (Some (Scenario.T0 + 129600000))
                              Scenario.usdCase
                              (Scenario.alone Scenario.usdCase))))).
Proof.
  assert (Hin : In (Scenario.written Scenario.usdCase 129600000 195)
                   (deceased
                      (db (snd (processCase (Scenario.after 129600000)
                                  (Some (Scenario.T0 + 129600000))
                                  Scenario.usdCase
                                  (Scenario.alone Scenario.usdCase))))))
    by (apply written_In; vm_compute; reflexivity).
  split; [|exact Hin].
  apply (proj2 storage_charge_is_days_times_rate
           (Scenario.after 129600000) (Some (Scenario.T0 + 129600000))
           Scenario.usdCase (Scenario.alone Scenario.usdCase)
           (Scenario.written Scenario.usdCase 129600000 195)
           Scenario.T0).
  - vm_compute. reflexivity.
  - exact Hin.
  - vm_compute. reflexivity.
  - unfold Scenario.T0. simpl. lia.
  - vm_compute. reflexivity.
  - vm_compute. reflexivity.
  - vm_compute. reflexivity.
  - left. vm_compute. reflexivity.
  - vm_compute. reflexivity.
  - vm_compute. reflexivity.
  - vm_compute. reflexivity.
Defined.


(** *** The audit row and the update *)

(** C10. The history entry of a case is inserted before the update of its
    row is attempted: when the incremental charge is significant and the
    case ends on the rejection of that update, the charge history has the
    new entry and the deceased table is as it was. *)
Theorem audit_row_outlives_failed_update
  (h : host) (now : Date) (d : Deceased.row) (w : world) :
  significant (incrementalCharge d (clock h (S (ticks w)))) = true ->
  fst (processCase h now d w)
  = Throw (QueryFailed (UpdateDeceased (Deceased.deceased_id d))) ->
  charge_history (db (snd (processCase h now d w)))
  = (charge_history (db w) ++ [historyEntry d (clock h (S (ticks w)))])%list
  /\ deceased (db (snd (processCase h now d w))) = deceased (db w).
Proof.
  intros Hsig Hthrow. split.
  - rewrite processCase_charge_history, Hsig. simpl.
    destruct (fails h (issued w)
                (InsertChargeHistory (Deceased.deceased_id d))) eqn:F;
      [|reflexivity].
    rewrite (processCase_insert_rejected h now d w Hsig F) in Hthrow.
    discriminate.
  - exact (processCase_throw h now d w _ Hthrow).
Qed.

Lemma audit_row_outlives_failed_update_witness :
  charge_history
    (db (snd (processCase Scenario.updateOfA_fails
                (Some Scenario.T0) Scenario.caseA Scenario.oneCase)))
  = [historyEntry Scenario.caseA (Scenario.T0 + 2 * Scenario.day)]
  /\ deceased
       (db (snd (processCase Scenario.updateOfA_fails
                   (Some Scenario.T0) Scenario.caseA Scenario.oneCase)))
     = [Scenario.caseA].
Proof.
  apply (audit_row_outlives_failed_update Scenario.updateOfA_fails
           (Some Scenario.T0) Scenario.caseA Scenario.oneCase);
    vm_compute; reflexivity.
Defined.

(** The same after a whole pass: the entry of 6000 KES is in the history,
    the row of the case is as it was, and the failure is in the log. *)
Example pass_with_failed_update :
  let w := snd (updateMortuaryCharges Scenario.updateOfA_fails
                  Scenario.oneCase) in
  map ChargeHistory.amount (charge_history (db w)) = [6000%float]
  /\ map ChargeHistory.description (charge_history (db w))
     = ["Daily mortuary charge (2.0000 days)"]
  /\ deceased (db w) = [Scenario.caseA]
  /\ errorLog w = [QueryFailed (UpdateDeceased (VStr "A"))].
Proof. vm_compute. repeat split. Qed.


(** *** Conversion rates *)

(** C8 as the specification has it fails: at the stored rate 0 the price
    of 13000 KES is converted at the rate 130 and 100 USD are added. *)
Lemma zero_rate_is_not_skipped :
  ~ Spec.invalid_rate_skipped_at (VStr "USD") Scenario.zeroRateCoffin.
Proof.
  intros H.
  assert (E : coffinCharges (VStr "USD") [Scenario.zeroRateCoffin]
              = 0%float) by (apply H; reflexivity).
  apply (f_equal (fun x => (x =? 100)%float)) in E.
  vm_compute in E. discriminate.
Qed.

Lemma strict_eq_VStr (v : value) (s : string) :
  strict_eq v (VStr s) = true -> v = VStr s.
Proof.
  destruct v as [|x|t]; simpl; try discriminate.
  intros E. apply String.eqb_eq in E. now subst.
Qed.

Lemma not_KES_and_USD (v : value) :
  strict_eq v (VStr "KES") = true -> strict_eq v (VStr "USD") = true -> False.
Proof.
  intros K U. apply strict_eq_VStr in K, U. rewrite K in U. discriminate.
Qed.

(** C8, as the program has it. A conversion between KES and USD never
    fails and is never skipped: it uses the stored exchange rate as a
    number, or 130 when the stored value is falsy, that is NULL, the empty
    string or the number 0; a KES price is divided by that rate, a USD
    price multiplied by it, and the price times the quantity is added to
    the coffin charges.  Any other stored value is the rate, a negative
    rate and a zero held as text included. *)
Theorem conversion_rate_defaults_to_130 (cur : value) (c : coffinRow) :
  Spec.needs_conversion cur c = true ->
  effectiveRate c
  = (if truthy (exchange_rate c) then ToNumber (exchange_rate c)
     else 130%float)
  /\ coffinPrice cur c
     = (if strict_eq (coffin_currency c) (VStr "KES")
        then (parseFloat (exact_price c) / effectiveRate c)%float
        else (parseFloat (price_usd c) * effectiveRate c)%float)
  /\ coffinCharges cur [c]
     = (0 + coffinPrice cur c * parseInt (or (quantity c) (VNum 1)))%float.
Proof.
  intros Hconv. split; [|split].
  - unfold effectiveRate, or. destruct (truthy (exchange_rate c)); reflexivity.
  - unfold Spec.needs_conversion in Hconv. unfold coffinPrice, effectiveRate.
    destruct (strict_eq (coffin_currency c) (VStr "KES")) eqn:K;
      destruct (strict_eq (coffin_currency c) (VStr "USD")) eqn:U;
      destruct (strict_eq cur (VStr "KES")) eqn:CK;
      destruct (strict_eq cur (VStr "USD")) eqn:CU;
      simpl in Hconv; try discriminate; try reflexivity;
      solve [ destruct (not_KES_and_USD _ K U)
            | destruct (not_KES_and_USD _ CK CU) ].
  - reflexivity.
Qed.

Lemma conversion_rate_defaults_to_130_witness :
  effectiveRate Scenario.zeroRateCoffin = 130%float
  /\ coffinPrice (VStr "USD") Scenario.zeroRateCoffin = 100%float
  /\ coffinCharges (VStr "USD") [Scenario.zeroRateCoffin] = 100%float.
Proof.
  exact (conversion_rate_defaults_to_130 (VStr "USD")
           Scenario.zeroRateCoffin eq_refl).
Defined.

(** A negative stored rate is used as it is. *)
Example negative_rate_is_used :
  coffinCharges (VStr "USD") [Scenario.negativeRateCoffin] = (-100)%float.
Proof. vm_compute. reflexivity. Qed.

(** A zero held as text is truthy: it is the rate, and the price of 13000
    KES divided by it is Infinity. *)
Example text_zero_rate_is_used :
  effectiveRate Scenario.textZeroRateCoffin = 0%float
  /\ coffinCharges (VStr "USD") [Scenario.textZeroRateCoffin] = infinity.
Proof. vm_compute. split; reflexivity. Qed.


(** *** Amounts that are missing or not numbers *)

Lemma isNaN_Prim2SF (x : float) : isNaN x = true -> Prim2SF x = S754_nan.
Proof.
  unfold isNaN. rewrite FloatAxioms.eqb_spec. unfold SFeqb.
  destruct (Prim2SF x) as [s|s| |s m e]; simpl; trivial.
  - discriminate.
  - destruct s; discriminate.
  - destruct s; rewrite Z.compare_refl, Pos.compare_cont_refl;
      discriminate.
Qed.

Lemma Prim2SF_isNaN (x : float) : Prim2SF x = S754_nan -> isNaN x = true.
Proof.
  intros E. unfold isNaN. rewrite FloatAxioms.eqb_spec, E. reflexivity.
Qed.

(** NaN absorbs sums and differences. *)
Lemma add_NaN_r (x y : float) : isNaN y = true -> isNaN (x + y) = true.
Proof.
  intros H. apply Prim2SF_isNaN. rewrite FloatAxioms.add_spec, (isNaN_Prim2SF y H).
  destruct (Prim2SF x); reflexivity.
Qed.

Lemma add_NaN_l (x y : float) : isNaN x = true -> isNaN (x + y) = true.
Proof.
  intros H. apply Prim2SF_isNaN. rewrite FloatAxioms.add_spec, (isNaN_Prim2SF x H).
  reflexivity.
Qed.

Lemma sub_NaN_l (x y : float) : isNaN x = true -> isNaN (x - y) = true.
Proof.
  intros H. apply Prim2SF_isNaN. rewrite FloatAxioms.sub_spec, (isNaN_Prim2SF x H).
  reflexivity.
Qed.

Lemma sum_NaN {A : Type} (f : A -> float) (l : list A) :
  forall acc, isNaN acc = true ->
              isNaN (fold_left (fun a x => (a + f x)%float) l acc) = true.
Proof.
  induction l as [|x l IH]; intros acc H; simpl.
  - exact H.
  - apply IH, add_NaN_l, H.
Qed.

Lemma amountOrZero_missing (v : value) :
  Spec.missing v = true -> amountOrZero v = 0%float.
Proof.
  unfold Spec.missing, amountOrZero, or. intros H.
  apply negb_true_iff in H. rewrite H. vm_compute. reflexivity.
Qed.

(** C9 as the specification has it fails: the extra charge whose amount is
    the string 'abc' does not count as 0, it makes the sum NaN. *)
Lemma malformed_amount_is_not_zero :
  ~ Spec.bad_amounts_are_zero_at [Scenario.malformedCharge].
Proof.
  unfold Spec.bad_amounts_are_zero_at. intros E.
  apply (f_equal isNaN) in E. vm_compute in E. discriminate.
Qed.

(** C9, as the program has it. A missing amount (NULL, the empty string or
    zero) of an extra charge, a payment or the embalming cost is treated as
    0: the sums are those of the same rows with the amount 0 in its place.
    An extra-charge amount that is present but not a number makes the
    total charge and the balance of the case NaN. *)
Theorem missing_amount_is_zero :
  (forall (before after : list ExtraCharge.row) (e e0 : ExtraCharge.row),
      Spec.missing (ExtraCharge.amount e) = true ->
      ExtraCharge.amount e0 = VNum 0 ->
      extraCharges (before ++ e :: after)
      = extraCharges (before ++ e0 :: after))
  /\ (forall (before after : list Payment.row) (p p0 : Payment.row),
         Spec.missing (Payment.amount p) = true ->
         Payment.amount p0 = VNum 0 ->
         totalPayments (before ++ p :: after)
         = totalPayments (before ++ p0 :: after))
  /\ (forall d : Deceased.row,
         Spec.missing (Deceased.embalming_cost d) = true ->
         embalming d = 0%float)
  /\ (forall (t : database) (d : Deceased.row) (now : Z)
             (before after : list ExtraCharge.row) (e : ExtraCharge.row),
         selectExtraCharges t (Deceased.deceased_id d)
         = (before ++ e :: after)%list ->
         Spec.missing (ExtraCharge.amount e) = false ->
         Spec.numeric (ExtraCharge.amount e) = false ->
         isNaN (caseTotal t d now) = true
         /\ isNaN (caseBalance t d now) = true).
Proof.
  split; [|split; [|split]].
  - intros before after e e0 He He0.
    unfold extraCharges. rewrite !fold_left_app. simpl.
    rewrite (amountOrZero_missing _ He), He0. reflexivity.
  - intros before after p p0 Hp Hp0.
    unfold totalPayments. rewrite !fold_left_app. simpl.
    rewrite (amountOrZero_missing _ Hp), Hp0. reflexivity.
  - intros d Hd. apply amountOrZero_missing, Hd.
  - intros t d now before after e Hrows Hpresent Hnum.
    assert (X : isNaN (caseExtraCharges t d) = true).
    { unfold caseExtraCharges, extraCharges. rewrite Hrows, fold_left_app.
      simpl. apply sum_NaN, add_NaN_r.
      unfold amountOrZero, or. unfold Spec.missing in Hpresent.
      apply negb_false_iff in Hpresent. rewrite Hpresent.
      unfold Spec.numeric in Hnum. now apply negb_false_iff in Hnum. }
    assert (T : isNaN (caseTotal t d now) = true).
    { unfold caseTotal, newTotal. apply add_NaN_l, add_NaN_r, X. }
    split; [exact T|]. unfold caseBalance. apply sub_NaN_l, T.
Qed.

Lemma missing_amount_is_zero_witness :
  extraCharges [Scenario.missingCharge] = extraCharges [Scenario.zeroCharge]
  /\ totalPayments [Scenario.missingPayment]
     = totalPayments [Scenario.zeroPayment]
  /\ embalming Scenario.caseA = 0%float
  /\ isNaN (caseTotal Scenario.malformedTables Scenario.caseA
              (Scenario.T0 + 2 * Scenario.day)) = true
  /\ isNaN (caseBalance Scenario.malformedTables Scenario.caseA
              (Scenario.T0 + 2 * Scenario.day)) = true.
Proof.
  destruct missing_amount_is_zero as (E & P & M & N).
  split; [|split; [|split]].
  - apply (E [] [] Scenario.missingCharge Scenario.zeroCharge); reflexivity.
  - apply (P [] [] Scenario.missingPayment Scenario.zeroPayment);
      reflexivity.
  - apply M. reflexivity.
  - apply (N Scenario.malformedTables Scenario.caseA
             (Scenario.T0 + 2 * Scenario.day) [] []
             Scenario.malformedCharge); reflexivity.
Defined.

(** The pass then puts NaN in both columns of the row. *)
Example malformed_amount_after_pass :
  let w := snd (updateMortuaryCharges Scenario.calm
                  (Scenario.start Scenario.malformedTables)) in
  map Deceased.total_mortuary_charge (deceased (db w)) = [VNum nan]
  /\ map Deceased.balance (deceased (db w)) = [VNum nan]
  /\ errorLog w = [].
Proof. vm_compute. repeat split. Qed.


(** *** Cancelled extra charges *)

(** The pass reads no cancelled charge. *)
Lemma selectExtraCharges_not_cancelled t id e :
  In e (selectExtraCharges t id) ->
  sql_eq (ExtraCharge.status e) (VStr "Cancelled") = false.
Proof.
  unfold selectExtraCharges. intros H. apply filter_In in H.
  destruct H as [_ H]. apply andb_true_iff in H. destruct H as [_ H].
  unfold sql_neq in H.
  destruct (ExtraCharge.status e); try discriminate;
    now apply negb_true_iff in H.
Qed.

(** A cancelled charge adds nothing to the extra charges of a pass,
    whatever its amount: the sum is that of the table without the row. *)
Lemma cancelled_charge_adds_nothing t d before after e :
  extra_charges t = (before ++ e :: after)%list ->
  sql_eq (ExtraCharge.status e) (VStr "Cancelled") = true ->
  caseExtraCharges t d
  = caseExtraCharges (withExtraCharges (before ++ after) t) d.
Proof.
  intros Ht Hc. unfold caseExtraCharges, selectExtraCharges. simpl.
  rewrite Ht, !filter_app. simpl.
  replace (sql_neq (ExtraCharge.status e) (VStr "Cancelled")) with false.
  - now rewrite andb_false_r.
  - unfold sql_neq. destruct (ExtraCharge.status e); trivial;
      now rewrite Hc.
Qed.

(** C5. For the case with the row id 1 and a case id that reads as the
    number 1, whose only extra charge, of 500, is cancelled, the pass
    computes the extra charges 0 and writes the total of two days of
    storage, 6000; and the financial summary counts the charge: 500 of
    extra charges, of total charges and of balance. *)
Theorem cancelled_charge_in_financial_summary :
  caseExtraCharges Scenario.cancelledTables Scenario.case1 = 0%float
  /\ map Deceased.total_mortuary_charge
         (deceased (db (snd (updateMortuaryCharges Scenario.calm
                               (Scenario.start Scenario.cancelledTables)))))
     = [VNum 6000]
  /\ Financials.total_extra_charges
       (Financials.summary Scenario.cancelledTables Scenario.case1)
     = 500%float
  /\ Financials.total_charges
       (Financials.summary Scenario.cancelledTables Scenario.case1)
     = 500%float
  /\ Financials.balance
       (Financials.summary Scenario.cancelledTables Scenario.case1)
     = 500%float.
Proof. vm_compute. repeat split. Qed.

(** For a case id that starts with letters the join of the summary on the
    row id finds no extra charge at all, cancelled or not, while the pass
    finds the pending charge of 700. *)
Example letter_prefix_joins_nothing :
  Financials.total_extra_charges
    (Financials.summary Scenario.tablesOfCase5 Scenario.case5) = 0%float
  /\ caseExtraCharges Scenario.tablesOfCase5 Scenario.case5 = 700%float.
Proof. vm_compute. split; reflexivity. Qed.


(** *** Fractional days *)

Lemma has_sign_leb (x : float) :
  Sign.has_sign false (Prim2SF x) -> (0 <=? x)%float = true.
Proof.
  rewrite FloatAxioms.leb_spec. change (Prim2SF 0) with (S754_zero false).
  destruct (Prim2SF x) as [s|s| |s m e]; simpl; try contradiction;
    intros ->; reflexivity.
Qed.

(** The day count is a number that is zero or positive. *)
Lemma getFractionalDays_sign (s e : Date) :
  Sign.has_sign false (Prim2SF (getFractionalDays s e)).
Proof.
  unfold getFractionalDays.
  destruct (0 <? _)%float eqn:L.
  - apply FloatFacts.ltb_zero_has_sign, L.
  - reflexivity.
Qed.

Lemma mul_finite_has_sign (x : spec_float) (m : positive) (e : Z) :
  Sign.has_sign false x ->
  Sign.has_sign false (SFmul prec emax x (S754_finite false m e)).
Proof.
  destruct x as [sx|sx| |sx mx ex]; simpl; try contradiction;
    intros ->; try reflexivity.
  apply FloatFacts.binary_round_aux_sign. lia.
Qed.

Lemma TimeClip_cases (t : Z) : TimeClip t = Some t \/ TimeClip t = None.
Proof. unfold TimeClip. destruct (_ <=? _); auto. Qed.

Lemma new_Date_TimeClip (t : Z) : new_Date (TimeClip t) = TimeClip t.
Proof.
  destruct (TimeClip_cases t) as [E|E]; rewrite E; simpl; trivial.
Qed.

(** The difference of two Dates is NaN or the rounded difference of their
    time values. *)
Lemma minus_cases (te ts : Z) :
  minus (new_Date (Some te)) (new_Date (Some ts)) = nan
  \/ minus (new_Date (Some te)) (new_Date (Some ts)) = of_Z (te - ts).
Proof.
  unfold minus.
  change (new_Date (Some te)) with (TimeClip te).
  change (new_Date (Some ts)) with (TimeClip ts).
  rewrite !new_Date_TimeClip.
  destruct (TimeClip_cases te) as [E|E];
    destruct (TimeClip_cases ts) as [F|F];
    rewrite ?E, ?F; simpl; auto.
Qed.

(** C4 as the specification has it fails: the storage charge is the days
    times the stored rate of a USD case as it is, and the rate -130.00
    gives, one day after admission, the storage charge and the total
    -130. *)
Lemma negative_rate_gives_negative_storage :
  ~ Spec.storage_nonnegative_at (Scenario.after Scenario.day)
      (Some (Scenario.T0 + Scenario.day)) Scenario.negativeRateCase
      (Scenario.alone Scenario.negativeRateCase).
Proof.
  intros H.
  assert (E : (0 <=? -130)%float = true).
  { apply (H (Scenario.written Scenario.negativeRateCase Scenario.day
                               (-130))).
    - vm_compute. reflexivity.
    - apply written_In. vm_compute. reflexivity.
    - vm_compute. reflexivity.
    - vm_compute. reflexivity.
    - vm_compute. reflexivity.
    - vm_compute. reflexivity.
    - vm_compute. reflexivity. }
  vm_compute in E. discriminate.
Qed.

(** C4, as the program has it. [getFractionalDays] returns a number that
    is at least 0 for every pair of Dates, and 0 whenever the end is at or
    before the start.  The storage charge in the total that a case is
    written with is these days times the rate in use: it is at least 0 for
    every case that is not billed in USD, and for a USD case it is not
    negative when the rate in use is not negative. *)
Theorem fractional_days_never_negative :
  (forall s e : Date, (0 <=? getFractionalDays s e)%float = true)
  /\ (forall ts te : Z,
         te <= ts -> getFractionalDays (Some ts) (Some te) = 0%float)
  /\ (forall (h : host) (now : Date) (d : Deceased.row) (w : world)
             (r : Deceased.row),
         fst (processCase h now d w) = Ok tt ->
         In r (deceased (db (snd (processCase h now d w)))) ->
         sql_eq (Deceased.deceased_id r) (Deceased.deceased_id d) = true ->
         let storage :=
           (getFractionalDays (admissionDate d)
                              (TimeClip (clock h (ticks w)))
            * baseRate d)%float in
         Deceased.total_mortuary_charge r
         = VNum (storage + caseCoffinCharges (db w) d
                 + caseExtraCharges (db w) d + embalming d)%float
         /\ (strict_eq (Deceased.currency d) (VStr "USD") = false ->
             (0 <=? storage)%float = true)
         /\ ((baseRate d <? 0)%float = false ->
             (storage <? 0)%float = false)).
Proof.
  split; [|split].
  - intros s e. apply has_sign_leb, getFractionalDays_sign.
  - intros ts te H. unfold getFractionalDays.
    replace (0 <? _)%float with false; [reflexivity|].
    symmetry. apply FloatFacts.not_positive_ltb.
    rewrite FloatAxioms.div_spec.
    change (Prim2SF (1000 * 60 * 60 * 24))
      with (S754_finite false 5798205849600000 (-26)).
    apply FloatFacts.div_not_positive.
    destruct (minus_cases te ts) as [E|E]; rewrite E.
    + exact I.
    + apply FloatFacts.of_Z_not_positive. lia.
  - intros h now d w r Hok Hin Hid. cbv zeta.
    split; [exact (processCase_total h now d w r Hok Hin Hid)|]. split.
    + intros Hcur. apply has_sign_leb.
      unfold baseRate. rewrite cur_is_USD, Hcur.
      rewrite FloatAxioms.mul_spec.
      destruct (strict_eq (Deceased.rate_category d) (VStr "premium")).
      * change (Prim2SF 5000)
          with (S754_finite false 5497558138880000 (-40)).
        apply mul_finite_has_sign, getFractionalDays_sign.
      * change (Prim2SF 3000)
          with (S754_finite false 6597069766656000 (-41)).
        apply mul_finite_has_sign, getFractionalDays_sign.
    + intros Hrate. apply FloatFacts.not_negative_ltb.
      rewrite FloatAxioms.mul_spec.
      apply FloatFacts.mul_not_negative.
      * apply getFractionalDays_sign.
      * apply FloatFacts.ltb_not_negative, Hrate.
Qed.

Lemma fractional_days_never_negative_witness :
  getFractionalDays (Some (Scenario.T0 + Scenario.day)) (Some Scenario.T0)
  = 0%float
  /\ Deceased.total_mortuary_charge
       (Scenario.written Scenario.caseA (- Scenario.day) 0)
     = VNum (getFractionalDays (admissionDate Scenario.caseA)
                               (TimeClip (Scenario.T0 - Scenario.day))
             * baseRate Scenario.caseA
             + caseCoffinCharges (db (Scenario.alone Scenario.caseA))
                                 Scenario.caseA
             + caseExtraCharges (db (Scenario.alone Scenario.caseA))
                                Scenario.caseA
             + embalming Scenario.caseA)%float
  /\ (0 <=? getFractionalDays (admissionDate Scenario.caseA)
                              (TimeClip (Scenario.T0 - Scenario.day))
            * baseRate Scenario.caseA)%float = true.
Proof.
  destruct fractional_days_never_negative as (_ & Z & S).
  split; [apply Z; unfold Scenario.day; lia|].
  destruct (S (Scenario.after (- Scenario.day))
              (Some (Scenario.T0 + - Scenario.day)) Scenario.caseA
              (Scenario.alone Scenario.caseA)
              (Scenario.written Scenario.caseA (- Scenario.day) 0))
    as (T & K & _).
  - vm_compute. reflexivity.
  - apply written_In. vm_compute. reflexivity.
  - vm_compute. reflexivity.
  - split; [exact T|]. apply K. vm_compute. reflexivity.
Defined.

(** A stored rate that is not a number gives the storage charge NaN, also
    before the admission. *)
Example malformed_rate_gives_NaN :
  map Deceased.total_mortuary_charge
      (deceased (db (snd (processCase (Scenario.after (- Scenario.day))
                            (Some (Scenario.T0 - Scenario.day))
                            Scenario.malformedRateCase
                            (Scenario.alone Scenario.malformedRateCase)))))
  = [VNum nan].
Proof. vm_compute. reflexivity. Qed.


(** *** Two passes *)

Lemma updateRow_hit id total now balance r :
  sql_eq (Deceased.deceased_id r) id = true ->
  updateRow id total now balance r
  = {| Deceased.id := Deceased.id r;
       Deceased.deceased_id := Deceased.deceased_id r;
       Deceased.rate_category := Deceased.rate_category r;
       Deceased.created_at := Deceased.created_at r;
       Deceased.date_admitted := Deceased.date_admitted r;
       Deceased.last_charge_update := Some now;
       Deceased.total_mortuary_charge := VNum total;
       Deceased.currency := Deceased.currency r;
       Deceased.usd_charge_rate := Deceased.usd_charge_rate r;
       Deceased.embalming_cost := Deceased.embalming_cost r;
       Deceased.status := Deceased.status r;
       Deceased.balance := VNum balance |}.
Proof. intros H. unfold updateRow. now rewrite H. Qed.

Lemma updateRow_miss id total now balance r :
  sql_eq (Deceased.deceased_id r) id = false ->
  updateRow id total now balance r = r.
Proof. intros H. unfold updateRow. now rewrite H. Qed.

Lemma updateDeceased_ids id total now balance rows :
  map Deceased.deceased_id (map (updateRow id total now balance) rows)
  = map Deceased.deceased_id rows.
Proof.
  rewrite map_map. apply map_ext. intros r. apply updateRow_deceased_id.
Qed.

(** What a pass computes for a case depends on the source tables only. *)
Lemma caseTotal_sources t t' d now :
  same_sources t t' -> caseTotal t' d now = caseTotal t d now.
Proof.
  intros S. unfold caseTotal, caseCoffinCharges, caseExtraCharges.
  now rewrite (same_sources_coffins _ _ _ S), (same_sources_extras _ _ _ S).
Qed.

Lemma caseBalance_sources t t' d now :
  same_sources t t' -> caseBalance t' d now = caseBalance t d now.
Proof.
  intros S. unfold caseBalance, casePayments.
  now rewrite (caseTotal_sources _ _ _ _ S), (same_sources_payments _ _ _ S).
Qed.

Lemma reconciled_sources t t' now d t1 :
  same_sources t t' -> reconciled t' now d t1 = reconciled t now d t1.
Proof.
  intros S. unfold reconciled.
  now rewrite (caseTotal_sources _ _ _ _ S), (caseBalance_sources _ _ _ _ S).
Qed.

(** On a database that rejects nothing a case completes, after two
    readings of the clock. *)
Lemma processCase_faultless h now d w :
  Spec.faultless h ->
  fst (processCase h now d w) = Ok tt
  /\ ticks (snd (processCase h now d w)) = S (S (ticks w)).
Proof.
  intros H.
  unfold processCase, bind, when, saveChargeHistory, safeQuery, Date_now,
    ret.
  simpl. destruct (significant _); simpl; rewrite ?H; simpl;
    split; reflexivity.
Qed.

Lemma keys_refl ids a : Spec.keys ids -> In a ids -> sql_eq a a = true.
Proof. intros [_ K] Ha. now apply (K a a Ha Ha). Qed.

(** The loop, on a database that rejects nothing and a table with keys:
    every case of the list is reconciled at some reading of the clock, and
    the rows of the other cases stay as they are. *)
Lemma for_of_reconciles h now :
  Spec.faultless h ->
  forall l w,
    Spec.keyed (deceased (db w)) ->
    NoDup (map Deceased.deceased_id l) ->
    (forall d, In d l -> In d (deceased (db w))) ->
    let w' := snd (for_of l (processCase h now) w) in
    fst (for_of l (processCase h now) w) = Ok tt
    /\ same_sources (db w) (db w')
    /\ map Deceased.deceased_id (deceased (db w'))
       = map Deceased.deceased_id (deceased (db w))
    /\ (ticks w <= ticks w')%nat
    /\ (forall d, In d l ->
                  exists k, (ticks w <= k < ticks w')%nat /\
                            In (reconciled (db w) now d (clock h k))
                               (deceased (db w')))
    /\ (forall r, In r (deceased (db w)) ->
                  ~ In (Deceased.deceased_id r)
                       (map Deceased.deceased_id l) ->
                  In r (deceased (db w'))).
Proof.
  intros Hcalm. induction l as [|d l IH]; intros w Hkeys Hnodup Hin.
  - simpl. repeat split; auto using same_sources_refl.
    intros d [].
  - destruct (processCase_faultless h now d w Hcalm) as [Hok Hticks].
    pose proof (processCase_ok h now d w Hok) as Htable.
    pose proof (processCase_sources h now d w) as Hsrc.
    set (w1 := snd (processCase h now d w)) in *.
    assert (Hids : map Deceased.deceased_id (deceased (db w1))
                   = map Deceased.deceased_id (deceased (db w))).
    { rewrite Htable. apply updateDeceased_ids. }
    assert (Hd : In d (deceased (db w))) by (apply Hin; now left).
    inversion Hnodup as [|x xs Hnotin Hnodup']; subst.
    assert (Hmiss : forall r,
               In r (deceased (db w)) ->
               Deceased.deceased_id r <> Deceased.deceased_id d ->
               In r (deceased (db w1))).
    { intros r Hr Hne. rewrite Htable. apply in_map_iff. exists r.
      split; [|exact Hr]. apply updateRow_miss.
      destruct (sql_eq _ _) eqn:E; trivial.
      destruct Hkeys as [_ K]. apply K in E; [contradiction| |];
        now apply in_map. }
    assert (Hhit : In (reconciled (db w) now d (clock h (ticks w)))
                      (deceased (db w1))).
    { rewrite Htable. apply in_map_iff. exists d. split; [|exact Hd].
      apply updateRow_hit. apply (keys_refl _ _ Hkeys). now apply in_map. }
    specialize (IH w1).
    destruct IH as (IHok & IHsrc & IHids & IHticks & IHrec & IHrest).
    { unfold Spec.keyed. rewrite Hids. exact Hkeys. }
    { exact Hnodup'. }
    { intros d' Hd'. apply Hmiss; [apply Hin; now right|].
      intros E. apply Hnotin. rewrite <- E. now apply in_map. }
    assert (Hfor : for_of (d :: l) (processCase h now) w
                   = for_of l (processCase h now) w1).
    { simpl. unfold bind.
      destruct (processCase h now d w) as [[[]|e] w0] eqn:P;
        simpl in *; [reflexivity | discriminate]. }
    cbv zeta. rewrite Hfor.
    split; [exact IHok|].
    split; [exact (same_sources_trans _ _ _ Hsrc IHsrc)|].
    split; [now rewrite IHids|].
    split; [lia|].
    split.
    + intros d' [<-|Hd'].
      * exists (ticks w). split; [lia|].
        apply IHrest; [exact Hhit|]. exact Hnotin.
      * destruct (IHrec d' Hd') as (k & Hk & Hrow).
        exists k. split; [lia|].
        now rewrite <- (reconciled_sources _ _ now d' (clock h k) Hsrc).
    + intros r Hr Hnot. apply IHrest.
      * apply Hmiss; [exact Hr|]. intros E. apply Hnot. left. now rewrite E.
      * intros Hl. apply Hnot. now right.
Qed.

(** The selected rows keep distinct keys. *)
Lemma selectDeceased_NoDup (t : database) :
  NoDup (map Deceased.deceased_id (deceased t)) ->
  NoDup (map Deceased.deceased_id (selectDeceased t)).
Proof.
  unfold selectDeceased.
  induction (deceased t) as [|r rows IH]; simpl; intros Hall.
  - constructor.
  - inversion Hall as [|key keys Hfresh Hrest]; subst.
    destruct (eligible r); simpl; auto.
    constructor; auto.
    intros Hr. apply Hfresh. apply in_map_iff in Hr.
    destruct Hr as (r' & Hkey & Hsel). apply filter_In in Hsel.
    apply in_map_iff. exists r'. tauto.
Qed.

(** One pass on a database that rejects nothing. *)
Lemma pass_reconciles h w now :
  Spec.faultless h ->
  Spec.keyed (deceased (db w)) ->
  passTime h w = Some now ->
  let w' := snd (updateMortuaryCharges h w) in
  same_sources (db w) (db w')
  /\ map Deceased.deceased_id (deceased (db w'))
     = map Deceased.deceased_id (deceased (db w))
  /\ (ticks w < ticks w')%nat
  /\ (forall d, In d (selectDeceased (db w)) ->
                exists k, (ticks w < k < ticks w')%nat /\
                          In (reconciled (db w) now d (clock h k))
                             (deceased (db w'))).
Proof.
  intros Hcalm Hkeys Hnow.
  destruct (for_of_reconciles h now Hcalm
              (selectDeceased (db w)) (loopStart w))
    as (Hok & Hsrc & Hids & Hticks & Hrec & _).
  - exact Hkeys.
  - apply selectDeceased_NoDup. apply Hkeys.
  - intros d Hd. apply filter_In in Hd. apply Hd.
  - cbv zeta. rewrite updateMortuaryCharges_eq, Hnow, Hcalm.
    destruct (for_of _ _ _) as [[[]|e] w'] eqn:F; simpl in *;
      [|discriminate].
    split; [exact Hsrc|]. split; [exact Hids|]. split; [lia|].
    intros d Hd. destruct (Hrec d Hd) as (k & Hk & Hrow).
    exists k. split; [lia | exact Hrow].
Qed.

(** C7. Two passes in succession, on a database that rejects nothing and
    with nothing else written in between: the row of a case after the
    second pass is the row that a pass over the tables as they were before
    the first writes at a later reading of the clock.  Both totals are the
    storage charge at the time of the pass plus the same coffin charges,
    extra charges and embalming cost, summed from the source tables, which
    no pass writes; the payments are the same too. *)
Theorem second_pass_recomputes_from_sources
  (h : host) (w : world) (d : Deceased.row) (now1 now2 : Date) :
  Spec.faultless h ->
  Spec.keyed (deceased (db w)) ->
  In d (selectDeceased (db w)) ->
  passTime h w = Some now1 ->
  passTime h (snd (updateMortuaryCharges h w)) = Some now2 ->
  let w1 := snd (updateMortuaryCharges h w) in
  let w2 := snd (updateMortuaryCharges h w1) in
  exists (ka kb : nat) (d1 d2 : Deceased.row),
    (ka < kb)%nat
    /\ In d1 (deceased (db w1))
    /\ In d2 (deceased (db w2))
    /\ d1 = reconciled (db w) now1 d (clock h ka)
    /\ d2 = reconciled (db w) now2 d (clock h kb)
    /\ Deceased.total_mortuary_charge d1
       = VNum (newTotal (totalStorageCharge d (clock h ka))
                 (caseCoffinCharges (db w) d) (caseExtraCharges (db w) d)
                 (embalming d))
    /\ Deceased.total_mortuary_charge d2
       = VNum (newTotal (totalStorageCharge d (clock h kb))
                 (caseCoffinCharges (db w) d) (caseExtraCharges (db w) d)
                 (embalming d))
    /\ caseCoffinCharges (db w1) d1 = caseCoffinCharges (db w) d
    /\ caseExtraCharges (db w1) d1 = caseExtraCharges (db w) d
    /\ casePayments (db w1) d1 = casePayments (db w) d
    /\ embalming d1 = embalming d.
Proof.
  intros Hcalm Hkeys Hd Hnow1 Hnow2 w1 w2.
  destruct (pass_reconciles h w now1 Hcalm Hkeys Hnow1)
    as (Hsrc1 & Hids1 & Hticks1 & Hrec1).
  fold w1 in Hsrc1, Hids1, Hticks1, Hrec1.
  destruct (Hrec1 d Hd) as (ka & Hka & Hrow1).
  set (d1 := reconciled (db w) now1 d (clock h ka)) in *.
  assert (Hkeys1 : Spec.keyed (deceased (db w1))).
  { unfold Spec.keyed. rewrite Hids1. exact Hkeys. }
  assert (Hd1 : In d1 (selectDeceased (db w1))).
  { apply filter_In. split; [exact Hrow1|].
    apply filter_In in Hd. exact (proj2 Hd). }
  destruct (pass_reconciles h w1 now2 Hcalm Hkeys1 Hnow2)
    as (Hsrc2 & Hids2 & Hticks2 & Hrec2).
  fold w2 in Hsrc2, Hids2, Hticks2, Hrec2.
  destruct (Hrec2 d1 Hd1) as (kb & Hkb & Hrow2).
  assert (E : reconciled (db w1) now2 d1 (clock h kb)
              = reconciled (db w) now2 d (clock h kb)).
  { rewrite (reconciled_sources _ _ _ _ _ Hsrc1). reflexivity. }
  rewrite E in Hrow2.
  exists ka, kb, d1, (reconciled (db w) now2 d (clock h kb)).
  split; [lia|].
  split; [exact Hrow1|].
  split; [exact Hrow2|].
  split; [reflexivity|].
  split; [reflexivity|].
  split; [reflexivity|].
  split; [reflexivity|].
  unfold caseCoffinCharges, caseExtraCharges, casePayments.
  rewrite (same_sources_coffins _ _ _ Hsrc1),
    (same_sources_extras _ _ _ Hsrc1), (same_sources_payments _ _ _ Hsrc1).
  repeat split.
Qed.

Lemma second_pass_recomputes_from_sources_witness :
  let h := Scenario.ticking in
  let w := Scenario.paidCase in
  let d := Scenario.caseA in
  let w1 := snd (updateMortuaryCharges h w) in
  let w2 := snd (updateMortuaryCharges h w1) in
  exists (ka kb : nat) (d1 d2 : Deceased.row),
    (ka < kb)%nat
    /\ In d1 (deceased (db w1))
    /\ In d2 (deceased (db w2))
    /\ d1 = reconciled (db w) (Some (Scenario.T0 + 2 * Scenario.day)) d
              (clock h ka)
    /\ d2 = reconciled (db w) (Some (Scenario.T0 + 2 * Scenario.day + 180000))
              d (clock h kb)
    /\ Deceased.total_mortuary_charge d1
       = VNum (newTotal (totalStorageCharge d (clock h ka))
                 (caseCoffinCharges (db w) d) (caseExtraCharges (db w) d)
                 (embalming d))
    /\ Deceased.total_mortuary_charge d2
       = VNum (newTotal (totalStorageCharge d (clock h kb))
                 (caseCoffinCharges (db w) d) (caseExtraCharges (db w) d)
                 (embalming d))
    /\ caseCoffinCharges (db w1) d1 = caseCoffinCharges (db w) d
    /\ caseExtraCharges (db w1) d1 = caseExtraCharges (db w) d
    /\ casePayments (db w1) d1 = casePayments (db w) d
    /\ embalming d1 = embalming d.
Proof.
  apply (second_pass_recomputes_from_sources Scenario.ticking
           Scenario.paidCase Scenario.caseA).
  - intros n q. reflexivity.
  - split.
    + simpl. constructor; [intros [] | constructor].
    + simpl. intros a b [<-|[]] [<-|[]]. split; reflexivity.
  - simpl. left. reflexivity.
  - reflexivity.
  - vm_compute. reflexivity.
Defined.

(** The scenario of section 8: a pass two days after admission, a payment
    of 2000, and a second pass at the same instant. *)
Example two_passes_same_instant :
  let w1 := snd (updateMortuaryCharges Scenario.calm Scenario.oneCase) in
  let w2 := snd (updateMortuaryCharges Scenario.calm
                   (Scenario.pay
                      {| Payment.deceased_id := VStr "A";
                         Payment.amount := VNum 2000 |} w1)) in
  map Deceased.total_mortuary_charge (deceased (db w1)) = [VNum 6000]
  /\ map Deceased.balance (deceased (db w1)) = [VNum 6000]
  /\ map Deceased.total_mortuary_charge (deceased (db w2)) = [VNum 6000]
  /\ map Deceased.balance (deceased (db w2)) = [VNum 4000].
Proof. vm_compute. repeat split. Qed.


(** *** The balance identity after a whole pass *)

Lemma balanced_sources t t' id r :
  same_sources t t' -> Spec.balanced t id r -> Spec.balanced t' id r.
Proof.
  intros S (T & HT & HB). exists T.
  now rewrite (same_sources_payments _ _ _ S).
Qed.

(** Every row is as it was before the loop or carries the total and the
    balance of a case of the list. *)
Lemma for_of_balanced h now (t0 : database) (l0 : list Deceased.row) :
  forall l w,
    (forall d, In d l -> In d l0) ->
    same_sources t0 (db w) ->
    (forall r, In r (deceased (db w)) ->
               In r (deceased t0)
               \/ exists d, In d l0
                            /\ sql_eq (Deceased.deceased_id r)
                                      (Deceased.deceased_id d) = true
                            /\ Spec.balanced t0 (Deceased.deceased_id d) r) ->
    let w' := snd (for_of l (processCase h now) w) in
    same_sources t0 (db w')
    /\ (forall r, In r (deceased (db w')) ->
                  In r (deceased t0)
                  \/ exists d, In d l0
                               /\ sql_eq (Deceased.deceased_id r)
                                         (Deceased.deceased_id d) = true
                               /\ Spec.balanced t0 (Deceased.deceased_id d) r).
Proof.
  induction l as [|d l IH]; intros w Hsub Hsrc Hinv; simpl.
  - split; assumption.
  - unfold bind.
    pose proof (processCase_sources h now d w) as S1.
    pose proof (processCase_ok h now d w) as Hok.
    pose proof (processCase_throw h now d w) as Hthrow.
    destruct (processCase h now d w) as [[[]|e] w1]; simpl in *.
    + apply IH.
      * intros d' Hd'. apply Hsub. now right.
      * exact (same_sources_trans _ _ _ Hsrc S1).
      * intros r Hr. rewrite (Hok eq_refl) in Hr.
        apply in_map_iff in Hr. destruct Hr as (r0 & <- & Hr0).
        destruct (sql_eq (Deceased.deceased_id r0) (Deceased.deceased_id d))
          eqn:E.
        -- right. exists d. split; [apply Hsub; now left|].
           rewrite updateRow_deceased_id. split; [exact E|].
           rewrite (updateRow_hit _ _ _ _ _ E).
           exists (caseTotal (db w) d (clock h (ticks w))). simpl.
           split; [reflexivity|]. unfold caseBalance, casePayments.
           now rewrite (same_sources_payments _ _ _ Hsrc).
        -- rewrite (updateRow_miss _ _ _ _ _ E). apply Hinv, Hr0.
    + split.
      * exact (same_sources_trans _ _ _ Hsrc S1).
      * intros r Hr. rewrite (Hthrow e eq_refl) in Hr. apply Hinv, Hr.
Qed.

(** After a pass, whatever failed in it, every row that the pass has
    changed carries a total and that total minus the payments of the case
    that wrote it. *)
Lemma pass_leaves_rows_balanced h w r :
  In r (deceased (db (snd (updateMortuaryCharges h w)))) ->
  In r (deceased (db w))
  \/ exists d,
      In d (selectDeceased (db w))
      /\ sql_eq (Deceased.deceased_id r) (Deceased.deceased_id d) = true
      /\ Spec.balanced (db (snd (updateMortuaryCharges h w)))
           (Deceased.deceased_id d) r.
Proof.
  rewrite updateMortuaryCharges_eq.
  destruct (passTime h w) as [now|]; [|simpl; auto].
  destruct (fails h (issued w) SelectDeceased); simpl.
  - auto.
  - destruct (for_of_balanced h now (db w)
                (selectDeceased (db w)) (selectDeceased (db w))
                (loopStart w))
      as (Hsrc & Hinv); simpl; auto using same_sources_refl.
    assert (Hfinal :
              db (snd (match for_of (selectDeceased (db w))
                               (processCase h now) (loopStart w) with
                       | (Ok _, w') => (Ok tt, w')
                       | (Throw e, w') => appendErrorLog e w'
                       end))
              = db (snd (for_of (selectDeceased (db w))
                           (processCase h now) (loopStart w)))).
    { destruct (for_of _ _ _) as [[[]|e] w']; reflexivity. }
    rewrite Hfinal. intros Hr.
    destruct (Hinv r Hr) as [Hold|(d & Hd & Hid & Hbal)]; [now left|].
    right. exists d. split; [exact Hd|]. split; [exact Hid|].
    exact (balanced_sources _ _ _ _ Hsrc Hbal).
Qed.

(** C1. When the pass writes a case, every row of its [deceased_id] holds
    a total [T] and the balance [T - totalPayments], the sum of the
    payments of that case.  And when the pass ends, whatever failed in it,
    every row of the deceased table is as it was before the pass or holds
    the total and the balance that a case of the pass wrote. *)
Theorem balance_is_total_minus_payments :
  (forall (h : host) (now : Date) (d : Deceased.row) (w : world)
          (r : Deceased.row),
      fst (processCase h now d w) = Ok tt ->
      In r (deceased (db (snd (processCase h now d w)))) ->
      sql_eq (Deceased.deceased_id r) (Deceased.deceased_id d) = true ->
      Spec.balanced (db (snd (processCase h now d w)))
        (Deceased.deceased_id d) r)
  /\ (forall (h : host) (w : world) (r : Deceased.row),
         In r (deceased (db (snd (updateMortuaryCharges h w)))) ->
         In r (deceased (db w))
         \/ exists d,
             In d (selectDeceased (db w))
             /\ sql_eq (Deceased.deceased_id r) (Deceased.deceased_id d)
                = true
             /\ Spec.balanced (db (snd (updateMortuaryCharges h w)))
                  (Deceased.deceased_id d) r).
Proof.
  split.
  - exact processCase_balanced.
  - exact pass_leaves_rows_balanced.
Qed.


Lemma balance_is_total_minus_payments_witness :
  Spec.balanced
    (db (snd (processCase Scenario.calm
                (Some (Scenario.T0 + 2 * Scenario.day))
                Scenario.caseA Scenario.paidCase)))
    (VStr "A") Scenario.reconciledA
  /\ (In Scenario.reconciledA (deceased (db Scenario.paidCase))
      \/ exists d,
          In d (selectDeceased (db Scenario.paidCase))
          /\ sql_eq (Deceased.deceased_id Scenario.reconciledA)
                    (Deceased.deceased_id d) = true
          /\ Spec.balanced
               (db (snd (updateMortuaryCharges Scenario.calm
                           Scenario.paidCase)))
               (Deceased.deceased_id d) Scenario.reconciledA).
Proof.
  destruct balance_is_total_minus_payments as [Hcase Hpass].
  split.
  - apply (Hcase Scenario.calm (Some (Scenario.T0 + 2 * Scenario.day))
             Scenario.caseA Scenario.paidCase Scenario.reconciledA).
    + vm_compute. reflexivity.
    + vm_compute. left. reflexivity.
    + reflexivity.
  - apply (Hpass Scenario.calm Scenario.paidCase Scenario.reconciledA).
    vm_compute. left. reflexivity.
Defined.

End ChargesFacts.

(** ** Facts on the pass as a whole *)

Module PassFacts.
Import JsNumber Js JsDate Db Host Charges Untouched.
Import ChargesFacts.

#[local] Arguments significant : simpl never.
#[local] Arguments getFractionalDays : simpl never.
#[local] Arguments baseRate : simpl never.
#[local] Arguments lastUpdate : simpl never.
#[local] Arguments admissionDate : simpl never.
#[local] Arguments TimeClip : simpl never.
#[local] Arguments toFixed : simpl never.

(** *** Rows that no selected case names *)

Lemma for_of_keeps_other_rows h now r :
  forall l w,
    In r (deceased (db w)) ->
    (forall d, In d l ->
               sql_eq (Deceased.deceased_id r) (Deceased.deceased_id d)
               = false) ->
    In r (deceased (db (snd (for_of l (processCase h now) w)))).
Proof.
  induction l as [|d l IH]; intros w Hr Hother; simpl.
  - exact Hr.
  - unfold bind.
    pose proof (processCase_ok h now d w) as Hok.
    pose proof (processCase_throw h now d w) as Hthrow.
    destruct (processCase h now d w) as [[[]|e] w1]; simpl in *.
    + apply IH.
      * rewrite (Hok eq_refl). apply in_map_iff. exists r.
        split; [|exact Hr]. apply updateRow_miss, Hother. now left.
      * intros d' Hd'. apply Hother. now right.
    + rewrite (Hthrow e eq_refl). exact Hr.
Qed.

Lemma final_tables h w now :
  passTime h w = Some now ->
  fails h (issued w) SelectDeceased = false ->
  db (snd (updateMortuaryCharges h w))
  = db (snd (for_of (selectDeceased (db w)) (processCase h now)
               (loopStart w))).
Proof.
  intros Hnow Hsel. rewrite updateMortuaryCharges_eq, Hnow, Hsel.
  destruct (for_of _ _ _) as [[[]|e] w']; reflexivity.
Qed.

Lemma no_pass_tables h w :
  passTime h w = None \/ fails h (issued w) SelectDeceased = true ->
  db (snd (updateMortuaryCharges h w)) = db w.
Proof.
  rewrite updateMortuaryCharges_eq. intros [E|E].
  - now rewrite E.
  - destruct (passTime h w); [rewrite E|]; reflexivity.
Qed.

(** Either the loop ran, from [loopStart w] at a timestamp [now], or no
    table was touched. *)
Lemma pass_cases h w :
  (exists now,
      passTime h w = Some now
      /\ fails h (issued w) SelectDeceased = false
      /\ db (snd (updateMortuaryCharges h w))
         = db (snd (for_of (selectDeceased (db w)) (processCase h now)
                      (loopStart w))))
  \/ db (snd (updateMortuaryCharges h w)) = db w.
Proof.
  destruct (passTime h w) as [now|] eqn:Hnow.
  - destruct (fails h (issued w) SelectDeceased) eqn:Hsel.
    + right. apply no_pass_tables. now right.
    + left. exists now. repeat split; trivial.
      now apply final_tables.
  - right. apply no_pass_tables. now left.
Qed.

Lemma keyed_same_row rows r d :
  Spec.keyed rows -> In r rows -> In d rows ->
  sql_eq (Deceased.deceased_id r) (Deceased.deceased_id d) = true ->
  r = d.
Proof.
  intros [Hnodup Hkeys] Hr Hd E.
  apply Hkeys in E; try now apply in_map.
  clear Hkeys. induction rows as [|x rows IH]; [contradiction|].
  simpl in Hnodup. inversion Hnodup as [|k ks Hfresh Hrest]; subst.
  destruct Hr as [<-|Hr], Hd as [<-|Hd]; trivial.
  - exfalso. apply Hfresh. rewrite E. now apply in_map.
  - exfalso. apply Hfresh. rewrite <- E. now apply in_map.
  - now apply IH.
Qed.

(** X1. A pass never changes the row of a case that it does not select (a
    case whose status is Complete, or that has no [created_at]), whatever
    fails during the pass, when [deceased_id] is a key of the table. *)
Theorem unselected_case_is_left_alone
  (h : host) (w : world) (r : Deceased.row) :
  Spec.keyed (deceased (db w)) ->
  In r (deceased (db w)) ->
  eligible r = false ->
  In r (deceased (db (snd (updateMortuaryCharges h w)))).
Proof.
  intros Hkeys Hr Hout.
  destruct (pass_cases h w) as [(now & _ & _ & E)|E]; rewrite E;
    [|exact Hr].
  apply for_of_keeps_other_rows; [exact Hr|].
  intros d Hd. apply filter_In in Hd. destruct Hd as [Hd Hin].
  destruct (sql_eq _ _) eqn:S; trivial.
  rewrite (keyed_same_row _ _ _ Hkeys Hr Hd S) in Hout. congruence.
Qed.

Lemma unselected_case_is_left_alone_witness :
  In completedB
     (deceased (db (snd (updateMortuaryCharges Scenario.calm
                           openAndCompleted)))).
Proof.
  apply (unselected_case_is_left_alone Scenario.calm openAndCompleted
           completedB).
  - split.
    + simpl. repeat constructor; simpl; intuition discriminate.
    + simpl. intros a b [<-|[<-|[]]] [<-|[<-|[]]]; split; intros E;
        try reflexivity; try discriminate.
  - simpl. right. left. reflexivity.
  - reflexivity.
Defined.


(** *** What a pass never writes *)

Lemma same_case_refl r : same_case r r.
Proof. repeat split. Qed.

Lemma same_case_trans r1 r2 r3 :
  same_case r1 r2 -> same_case r2 r3 -> same_case r1 r3.
Proof.
  unfold same_case. intros H1 H2.
  decompose [and] H1. decompose [and] H2. repeat split; congruence.
Qed.

Lemma same_case_updateRow id total now balance r :
  same_case r (updateRow id total now balance r).
Proof. unfold updateRow. destruct (sql_eq _ _); repeat split. Qed.

Lemma same_case_rows_refl rows : Forall2 same_case rows rows.
Proof. induction rows; constructor; auto using same_case_refl. Qed.

Lemma same_case_rows_update id total now balance rows0 rows :
  Forall2 same_case rows0 rows ->
  Forall2 same_case rows0 (map (updateRow id total now balance) rows).
Proof.
  induction 1 as [|r0 r rows0 rows Hr _ IH]; simpl; constructor; trivial.
  exact (same_case_trans _ _ _ Hr (same_case_updateRow _ _ _ _ r)).
Qed.

Lemma for_of_same_cases h now rows0 t0 :
  forall l w,
    same_sources t0 (db w) ->
    Forall2 same_case rows0 (deceased (db w)) ->
    same_sources t0 (db (snd (for_of l (processCase h now) w)))
    /\ Forall2 same_case rows0
         (deceased (db (snd (for_of l (processCase h now) w)))).
Proof.
  induction l as [|d l IH]; intros w Hsrc Hrows; simpl.
  - split; assumption.
  - unfold bind.
    pose proof (processCase_sources h now d w) as S1.
    pose proof (processCase_ok h now d w) as Hok.
    pose proof (processCase_throw h now d w) as Hthrow.
    destruct (processCase h now d w) as [[[]|e] w1]; simpl in *.
    + apply IH.
      * exact (same_sources_trans _ _ _ Hsrc S1).
      * rewrite (Hok eq_refl). now apply same_case_rows_update.
    + split.
      * exact (same_sources_trans _ _ _ Hsrc S1).
      * now rewrite (Hthrow e eq_refl).
Qed.

(** X2. A pass writes nothing but three columns: whatever fails in it, the
    coffin, extra-charge and payment tables are as they were, and the
    deceased table has the same rows in the same order with every column
    other than [total_mortuary_charge], [last_charge_update] and [balance]
    unchanged. *)
Theorem pass_writes_three_columns_only (h : host) (w : world) :
  same_sources (db w) (db (snd (updateMortuaryCharges h w)))
  /\ Forall2 same_case (deceased (db w))
       (deceased (db (snd (updateMortuaryCharges h w)))).
Proof.
  destruct (pass_cases h w) as [(now & _ & _ & E)|E]; rewrite E.
  - apply for_of_same_cases.
    + apply same_sources_refl.
    + apply same_case_rows_refl.
  - split; [apply same_sources_refl | apply same_case_rows_refl].
Qed.

(** *** The charge history only grows *)

Lemma for_of_history h now :
  forall l w,
  exists added,
    charge_history (db (snd (for_of l (processCase h now) w)))
    = (charge_history (db w) ++ added)%list
    /\ (List.length added <= List.length l)%nat
    /\ Forall storage_entry added.
Proof.
  induction l as [|d l IH]; intros w; simpl.
  - exists []. rewrite app_nil_r. repeat split; auto.
  - unfold bind.
    pose proof (processCase_charge_history h now d w) as H1.
    set (logged := significant (incrementalCharge d (clock h (S (ticks w))))
                   && negb (fails h (issued w)
                              (InsertChargeHistory (Deceased.deceased_id d))))
      in H1.
    assert (Hentry : logged = true ->
                     storage_entry (historyEntry d (clock h (S (ticks w))))).
    { unfold logged. intros L. apply andb_true_iff in L.
      split; [reflexivity | exact (proj1 L)]. }
    destruct (processCase h now d w) as [[[]|e] w1]; simpl in *.
    + destruct (IH w1) as (added & E & Hlen & Hall).
      rewrite E, H1, <- app_assoc.
      destruct logged.
      * exists (historyEntry d (clock h (S (ticks w))) :: added).
        repeat split; simpl; auto; lia.
      * exists added. repeat split; simpl; auto.
    + rewrite H1. destruct logged.
      * exists [historyEntry d (clock h (S (ticks w)))].
        repeat split; simpl; auto; lia.
      * exists []. repeat split; simpl; auto; lia.
Qed.

(** X3. The charge history is append-only under the pass: whatever fails,
    the history after a pass is the history before it followed by at most
    one new entry for each selected case, each of type [daily_storage]
    with an amount above 0.01. *)
Theorem pass_appends_storage_entries (h : host) (w : world) :
  exists added,
    charge_history (db (snd (updateMortuaryCharges h w)))
    = (charge_history (db w) ++ added)%list
    /\ (List.length added <= List.length (selectDeceased (db w)))%nat
    /\ Forall storage_entry added.
Proof.
  destruct (pass_cases h w) as [(now & _ & _ & E)|E]; rewrite E.
  - exact (for_of_history h now (selectDeceased (db w)) (loopStart w)).
  - exists []. rewrite app_nil_r. repeat split; auto. simpl. lia.
Qed.

(** *** The error log *)

Lemma processCase_errorLog h now d w :
  errorLog (snd (processCase h now d w)) = errorLog w.
Proof. run_case; reflexivity. Qed.

Lemma processCase_error h now d w e :
  fst (processCase h now d w) = Throw e ->
  exists n q, e = QueryFailed q /\ fails h n q = true.
Proof.
  run_case; intros E; inversion E; subst;
    eexists; eexists; (split; [reflexivity | eassumption]).
Qed.

Lemma for_of_errors h now :
  forall l w,
    errorLog (snd (for_of l (processCase h now) w)) = errorLog w
    /\ (forall e, fst (for_of l (processCase h now) w) = Throw e ->
                  exists n q, e = QueryFailed q /\ fails h n q = true).
Proof.
  induction l as [|d l IH]; intros w; simpl.
  - split; [reflexivity | discriminate].
  - unfold bind.
    pose proof (processCase_errorLog h now d w) as L.
    pose proof (processCase_error h now d w) as T.
    destruct (processCase h now d w) as [[[]|e] w1]; simpl in *.
    + destruct (IH w1) as [L1 T1]. split; [congruence | exact T1].
    + split; [exact L|]. intros e' E. inversion E; subst. now apply T.
Qed.

(** X4. A pass appends at most one entry to the error log, and an entry
    always names a query that the database rejected.  When the rejected
    query is the reading of the deceased list, no table is changed. *)
Theorem error_log_names_a_rejected_query (h : host) (w : world) :
  (errorLog (snd (updateMortuaryCharges h w)) = errorLog w
   \/ exists n q,
       fails h n q = true
       /\ errorLog (snd (updateMortuaryCharges h w))
          = (errorLog w ++ [QueryFailed q])%list)
  /\ (forall now,
         passTime h w = Some now ->
         fails h (issued w) SelectDeceased = true ->
         db (snd (updateMortuaryCharges h w)) = db w
         /\ errorLog (snd (updateMortuaryCharges h w))
            = (errorLog w ++ [QueryFailed SelectDeceased])%list).
Proof.
  split.
  - rewrite updateMortuaryCharges_eq.
    destruct (passTime h w) as [now|]; [|now left].
    destruct (fails h (issued w) SelectDeceased) eqn:Hsel.
    + right. exists (issued w), SelectDeceased. split; trivial.
    + destruct (for_of_errors h now (selectDeceased (db w)) (loopStart w))
        as [L T].
      destruct (for_of _ _ _) as [[[]|e] w']; simpl in *.
      * now left.
      * right. destruct (T e eq_refl) as (n & q & -> & F).
        exists n, q. split; [exact F | now rewrite L].
  - intros now Hnow Hsel. split.
    + apply no_pass_tables. now right.
    + rewrite updateMortuaryCharges_eq, Hnow, Hsel. reflexivity.
Qed.

Lemma error_log_names_a_rejected_query_witness :
  db (snd (updateMortuaryCharges list_fails Scenario.twoCases))
  = db Scenario.twoCases
  /\ errorLog (snd (updateMortuaryCharges list_fails Scenario.twoCases))
     = [QueryFailed SelectDeceased].
Proof.
  apply (proj2 (error_log_names_a_rejected_query list_fails
                  Scenario.twoCases)
           (Some (Scenario.T0 + 2 * Scenario.day)));
    reflexivity.
Defined.


(** *** Days that do not count *)

Lemma new_Date_idempotent (d : Date) (t : Z) :
  new_Date d = Some t -> TimeClip t = Some t.
Proof.
  destruct d as [t0|]; simpl; [|discriminate].
  intros E. destruct (TimeClip_cases t0) as [C|C]; rewrite C in E.
  - inversion E; subst. exact C.
  - discriminate.
Qed.

Lemma days_zero_or_after (s e : Date) :
  getFractionalDays s e = 0%float
  \/ exists ts te, new_Date s = Some ts /\ new_Date e = Some te /\ ts < te.
Proof.
  unfold getFractionalDays.
  destruct (0 <? _)%float eqn:L; [right | now left].
  destruct (new_Date e) as [te|] eqn:Ee;
    [|vm_compute in L; discriminate L].
  destruct (new_Date s) as [ts|] eqn:Es;
    [|unfold minus in L; simpl new_Date in L;
      destruct (TimeClip te); vm_compute in L; discriminate L].
  exists ts, te. repeat split.
  destruct (Z.lt_ge_cases ts te) as [Hlt|Hge]; [exact Hlt|].
  exfalso. revert L.
  unfold minus. simpl new_Date.
  rewrite (new_Date_idempotent _ _ Ee), (new_Date_idempotent _ _ Es).
  rewrite FloatFacts.not_positive_ltb; [discriminate|].
  rewrite FloatAxioms.div_spec.
  change (Prim2SF (1000 * 60 * 60 * 24))
    with (S754_finite false 5798205849600000 (-26)).
  apply FloatFacts.div_not_positive, FloatFacts.of_Z_not_positive. lia.
Qed.

(** X5. [getFractionalDays] returns 0 unless both Dates are valid and the
    end is after the start: an Invalid Date on either side counts as no
    time at all. *)
Theorem days_are_zero_unless_end_after_start (s e : Date) :
  getFractionalDays s e = 0%float
  \/ exists ts te, new_Date s = Some ts /\ new_Date e = Some te /\ ts < te.
Proof. exact (days_zero_or_after s e). Qed.

Lemma significant_zero_times (r : float) : significant (0 * r) = false.
Proof.
  unfold significant. rewrite FloatAxioms.ltb_spec, FloatAxioms.mul_spec.
  change (Prim2SF 0) with (S754_zero false).
  change (Prim2SF 0.01) with (S754_finite false 5764607523034235 (-59)).
  destruct (Prim2SF r) as [sr|sr| |sr mr er]; reflexivity.
Qed.

(** X6. A case gets no entry in the charge history when its last update,
    as [new Date] reads the stored column, is not before the reading of the
    clock, or is not a valid date. *)
Theorem no_history_entry_without_elapsed_time
  (h : host) (now : Date) (d : Deceased.row) (w : world) :
  (forall tl t, new_Date (lastUpdate d) = Some tl ->
                TimeClip (clock h (S (ticks w))) = Some t ->
                t <= tl) ->
  charge_history (db (snd (processCase h now d w))) = charge_history (db w).
Proof.
  intros Hlate. rewrite processCase_charge_history.
  replace (significant (incrementalCharge d (clock h (S (ticks w)))))
    with false; [simpl; now rewrite app_nil_r|].
  symmetry. unfold incrementalCharge, incrementalDays.
  destruct (days_zero_or_after (lastUpdate d)
              (TimeClip (clock h (S (ticks w))))) as [Z|(tl & t & El & Et & Hlt)].
  - rewrite Z. apply significant_zero_times.
  - rewrite new_Date_TimeClip in Et. specialize (Hlate tl t El Et). lia.
Qed.

Lemma no_history_entry_without_elapsed_time_witness :
  charge_history
    (db (snd (processCase Scenario.calm
                (Some (Scenario.T0 + 2 * Scenario.day)) upToDateA
                (Scenario.start (Scenario.tables [upToDateA] [] [] [] [])))))
  = [].
Proof.
  apply (no_history_entry_without_elapsed_time Scenario.calm
           (Some (Scenario.T0 + 2 * Scenario.day)) upToDateA
           (Scenario.start (Scenario.tables [upToDateA] [] [] [] []))).
  intros tl t El Et. vm_compute in El, Et.
  inversion El; inversion Et; subst. lia.
Defined.


(** *** The statements of a pass *)

Lemma processCase_statements h now d w :
  Spec.faultless h ->
  (issued (snd (processCase h now d w))
   + List.length (charge_history (db w))
   = issued w + 4
     + List.length (charge_history (db (snd (processCase h now d w)))))%nat.
Proof.
  intros H.
  unfold processCase, bind, when, saveChargeHistory, safeQuery, Date_now,
    ret.
  simpl. destruct (significant _); simpl; rewrite ?H; simpl;
    rewrite ?length_app; simpl; lia.
Qed.

Lemma for_of_statements h now :
  Spec.faultless h ->
  forall l w,
    (issued (snd (for_of l (processCase h now) w))
     + List.length (charge_history (db w))
     = issued w + 4 * List.length l
       + List.length
           (charge_history (db (snd (for_of l (processCase h now) w)))))%nat.
Proof.
  intros H. induction l as [|d l IH]; intros w; simpl.
  - lia.
  - unfold bind.
    pose proof (processCase_statements h now d w H) as S1.
    destruct (processCase_faultless h now d w H) as [Hok _].
    destruct (processCase h now d w) as [[[]|e] w1]; simpl in *;
      [|discriminate].
    specialize (IH w1). lia.
Qed.

(** X7. A pass that meets no rejection sends the database one statement
    for the list of the cases, four statements for each selected case (the
    coffins, the extra charges, the payments, the update) and one more for
    each history entry that it files. *)
Theorem pass_sends_four_statements_a_case
  (h : host) (w : world) (now : Date) :
  Spec.faultless h ->
  passTime h w = Some now ->
  (issued (snd (updateMortuaryCharges h w))
   + List.length (charge_history (db w))
   = issued w + 1 + 4 * List.length (selectDeceased (db w))
     + List.length
         (charge_history (db (snd (updateMortuaryCharges h w)))))%nat.
Proof.
  intros H Hnow. rewrite updateMortuaryCharges_eq, Hnow, H.
  pose proof (for_of_statements h now H (selectDeceased (db w))
                (loopStart w)) as S1.
  assert (Hok : fst (for_of (selectDeceased (db w)) (processCase h now)
                       (loopStart w)) = Ok tt).
  { clear S1. generalize (loopStart w).
    induction (selectDeceased (db w)) as [|d l IH]; intros w0; simpl.
    - reflexivity.
    - unfold bind.
      destruct (processCase_faultless h now d w0 H) as [Hd _].
      destruct (processCase h now d w0) as [[[]|e] w1]; simpl in *;
        [apply IH|discriminate]. }
  destruct (for_of _ _ _) as [[[]|e] w']; simpl in *; [|discriminate].
  lia.
Qed.

Lemma pass_sends_four_statements_a_case_witness :
  (issued (snd (updateMortuaryCharges Scenario.calm openAndCompleted))
   + List.length (charge_history (db openAndCompleted))
   = issued openAndCompleted + 1
     + 4 * List.length (selectDeceased (db openAndCompleted))
     + List.length
         (charge_history
            (db (snd (updateMortuaryCharges Scenario.calm
                        openAndCompleted)))))%nat.
Proof.
  apply (pass_sends_four_statements_a_case Scenario.calm openAndCompleted
           (Some (Scenario.T0 + 2 * Scenario.day))).
  - intros n q. reflexivity.
  - reflexivity.
Defined.

(** One open case whose two days of storage are filed: the list, four
    statements and the history entry. *)
Example six_statements_for_one_case :
  issued (snd (updateMortuaryCharges Scenario.calm openAndCompleted))
  = 6%nat.
Proof. vm_compute. reflexivity. Qed.

(** *** The quantity of a coffin *)

(** X8. A coffin issued with no quantity (NULL, the empty string or 0)
    is charged as one coffin: it adds its price, times 1, to the coffin
    charges of the case. *)
Theorem missing_quantity_is_one_coffin
  (cur : value) (coffinRows : list coffinRow) (c : coffinRow) :
  Spec.missing (quantity c) = true ->
  coffinCharges cur (coffinRows ++ [c])
  = (coffinCharges cur coffinRows + coffinPrice cur c * 1)%float.
Proof.
  unfold Spec.missing, coffinCharges, or. intros H.
  apply negb_true_iff in H.
  rewrite fold_left_app. simpl. rewrite H. reflexivity.
Qed.

Lemma missing_quantity_is_one_coffin_witness :
  coffinCharges (VStr "KES")
    ([issuedCoffin (VNum 2)] ++ [issuedCoffin (VNum 0)])%list
  = 39000%float.
Proof.
  rewrite (missing_quantity_is_one_coffin (VStr "KES")
             [issuedCoffin (VNum 2)] (issuedCoffin (VNum 0)) eq_refl).
  vm_compute. reflexivity.
Defined.

End PassFacts.

(** ** Facts on the scheduled pass *)

Module BackgroundTasksFacts.
Import JsNumber Js JsDate Db Host Charges Untouched BackgroundTasks.
Import ChargesFacts.

Lemma pass_outcome h w :
  fst (updateMortuaryCharges h w)
  = match passTime h w with
    | Some _ => Ok tt
    | None => Throw RangeError
    end.
Proof.
  rewrite updateMortuaryCharges_eq.
  destruct (passTime h w) as [now|]; [|reflexivity].
  destruct (fails h (issued w) SelectDeceased); simpl; [reflexivity|].
  destruct (for_of _ _ _) as [[[]|e'] w']; reflexivity.
Qed.

(** X9. The scheduled job reports a failure of the pass, on the console and
    as [system_error] on the socket, only when the timestamp of the pass
    cannot be built.  A query that the database rejects during the pass is
    caught inside the pass: it reaches neither the console line of the job
    nor the socket.  Without a socket server only the console line is
    written, and the job that runs once after the start never writes to
    the socket. *)
Theorem cron_reports_only_a_missing_timestamp
  (h : host) (io : bool) (s : server) :
  socket (snd (chargesCron h io s))
  = match passTime h (world_of s) with
    | Some _ => socket s
    | None =>
        if io
        then (socket s
              ++ [{| message := "Mortuary charge update failed";
                     details := RangeError |}])%list
        else socket s
    end
  /\ console (snd (chargesCron h io s))
     = match passTime h (world_of s) with
       | Some _ => console s
       | None =>
           (console s
            ++ [{| context := "Mortuary charge cron failed";
                   err := RangeError |}])%list
       end
  /\ socket (snd (initialCharges h s)) = socket s
  /\ console (snd (initialCharges h s))
     = match passTime h (world_of s) with
       | Some _ => console s
       | None =>
           (console s
            ++ [{| context := "Initial mortuary charge update failed";
                   err := RangeError |}])%list
       end.
Proof.
  unfold chargesCron, initialCharges, pass.
  rewrite (pass_outcome h (world_of s)).
  destruct (passTime h (world_of s)) as [now|]; simpl.
  - repeat split; reflexivity.
  - destruct io; simpl; repeat split; reflexivity.
Qed.

(** A rejected list query is written to the error log of the pass and is
    not broadcast; a missing timestamp is. *)
Example rejected_list_is_not_broadcast :
  socket (snd (chargesCron list_fails true (boot openAndCompleted))) = []
  /\ errorLog (world_of (snd (chargesCron list_fails true
                                (boot openAndCompleted))))
     = [QueryFailed SelectDeceased]
  /\ socket (snd (chargesCron no_timestamp true (boot openAndCompleted)))
     = [{| message := "Mortuary charge update failed";
           details := RangeError |}].
Proof. vm_compute. repeat split. Qed.

End BackgroundTasksFacts.

(** ** Facts on the invoice controller *)

Module InvoiceFacts.
Import JsNumber Js JsDate Db Host Charges Invoice.
Import ChargesFacts.

Lemma distinct_repeated (x : float) (l : list float) :
  existsb (fun y => (x =? y)%float) l = true ->
  Financials.distinct (x :: l) = Financials.distinct l.
Proof. intros H. simpl. now rewrite H. Qed.

Lemma numbers_In (v : value) (x : float) (l : list value) :
  In v l -> Financials.sql_number v = Some x -> In x (Financials.numbers l).
Proof.
  induction l as [|u l IH]; simpl; [tauto|].
  intros [->|H] E.
  - rewrite E. now left.
  - destruct (Financials.sql_number u); [right|]; auto.
Qed.

(** X10. The financial summary adds each amount of a case once, however
    many payments have it: when a case has a payment of some amount,
    recording another payment of the same amount for it changes nothing in
    the row of the case. *)
Theorem repeated_payment_is_counted_once
  (t : database) (d : Deceased.row) (p q : Payment.row) (x y : float) :
  In q (Financials.joinedPayments t d) ->
  Financials.sql_number (Payment.amount q) = Some y ->
  Financials.sql_number (Payment.amount p) = Some x ->
  (x =? y)%float = true ->
  Financials.summary (withPayment p t) d = Financials.summary t d.
Proof.
  intros Hq Ey Ex Hxy.
  assert (R : Financials.coalesce_sum_distinct
                (map Payment.amount
                     (Financials.joinedPayments (withPayment p t) d))
              = Financials.coalesce_sum_distinct
                  (map Payment.amount (Financials.joinedPayments t d))).
  { unfold Financials.joinedPayments, withPayment. simpl.
    destruct (sql_eq (Deceased.id d) (Payment.deceased_id p));
      [|reflexivity].
    unfold Financials.coalesce_sum_distinct. simpl map.
    simpl Financials.numbers. rewrite Ex.
    rewrite distinct_repeated; [reflexivity|].
    apply existsb_exists. exists y. split; [|exact Hxy].
    apply (numbers_In (Payment.amount q)); [|exact Ey].
    apply in_map, Hq. }
  unfold Financials.summary. rewrite R. reflexivity.
Qed.


(** *** The totals of the details *)

Lemma sum_NaN_In {A : Type} (f : A -> float) (l : list A) (x : A) :
  In x l -> isNaN (f x) = true ->
  forall acc, isNaN (fold_left (fun a y => (a + f y)%float) l acc) = true.
Proof.
  induction l as [|y l IH]; simpl; [tauto|].
  intros [->|H] N acc.
  - apply sum_NaN, add_NaN_r, N.
  - apply IH; assumption.
Qed.

Lemma sub_NaN_r (x y : float) : isNaN y = true -> isNaN (x - y) = true.
Proof.
  intros H. apply Prim2SF_isNaN.
  rewrite FloatAxioms.sub_spec, (isNaN_Prim2SF y H).
  destruct (Prim2SF x); reflexivity.
Qed.

(** X11. The details of a case do not default an amount: one payment whose
    amount does not read as a number (NULL, for one) makes the total of the
    payments and the balance NaN, whatever the other rows hold. *)
Theorem unreadable_payment_makes_details_NaN
  (deceased : Deceased.row) (payments : list Payment.row)
  (extraCharges : list ExtraCharge.row) (p : Payment.row) :
  In p payments ->
  isNaN (parseFloat (Payment.amount p)) = true ->
  isNaN (total_payments (financialSummary deceased payments extraCharges))
  = true
  /\ isNaN (balance (financialSummary deceased payments extraCharges))
     = true.
Proof.
  intros Hp N.
  assert (T : isNaN (total_payments
                       (financialSummary deceased payments extraCharges))
              = true).
  { unfold financialSummary, total_payments.
    apply (sum_NaN_In (fun q => parseFloat (Payment.amount q))
                      payments p Hp N). }
  split; [exact T|].
  unfold financialSummary, balance, minus. simpl ToNumber at 2.
  apply sub_NaN_r. exact T.
Qed.

Lemma unreadable_payment_makes_details_NaN_witness :
  isNaN (total_payments
           (financialSummary Scenario.reconciledA
              [{| Payment.deceased_id := VStr "A";
                  Payment.amount := VStr "2000.00" |};
               {| Payment.deceased_id := VStr "A";
                  Payment.amount := VNull |}] [])) = true
  /\ isNaN (balance
              (financialSummary Scenario.reconciledA
                 [{| Payment.deceased_id := VStr "A";
                     Payment.amount := VStr "2000.00" |};
                  {| Payment.deceased_id := VStr "A";
                     Payment.amount := VNull |}] [])) = true.
Proof.
  apply (unreadable_payment_makes_details_NaN Scenario.reconciledA _ []
           {| Payment.deceased_id := VStr "A"; Payment.amount := VNull |}).
  - simpl. right. left. reflexivity.
  - vm_compute. reflexivity.
Defined.

(** X12. When the total of the case comes back as text, which is how the
    driver returns a DECIMAL column, the total charges of the details are
    not a sum: they are the text of the column followed by the digits of
    the extra charges, and the balance is computed from that text. *)
Theorem text_total_is_concatenated
  (deceased : Deceased.row) (payments : list Payment.row)
  (extraCharges : list ExtraCharge.row) (s : string) :
  Deceased.total_mortuary_charge deceased = VStr s ->
  s <> ""%string ->
  let r := financialSummary deceased payments extraCharges in
  total_charges r = VStr (s ++ toString (extra_charges r))
  /\ balance r
     = (ToNumber_string (s ++ toString (extra_charges r))
        - total_payments r)%float.
Proof.
  intros E Hs r. subst r.
  unfold financialSummary, total_charges, extra_charges, balance,
    total_payments, minus, plus, or.
  rewrite E. simpl truthy.
  destruct (String.eqb_spec s ""); [contradiction|].
  simpl. split; reflexivity.
Qed.

Lemma text_total_is_concatenated_witness :
  total_charges (financialSummary storedAsText [] [pendingCharge])
  = VStr "6000.00500"
  /\ balance (financialSummary storedAsText [] [pendingCharge])
     = 6000.005%float.
Proof.
  destruct (text_total_is_concatenated storedAsText [] [pendingCharge]
              "6000.00" eq_refl) as [T B].
  - discriminate.
  - split.
    + rewrite T. vm_compute. reflexivity.
    + rewrite B. vm_compute. reflexivity.
Defined.


(** *** The lines of a system invoice *)

Lemma sumOfLines_app (items : list item) (i : item) :
  sumOfLines (items ++ [i]) = (sumOfLines items + amount i)%float.
Proof. unfold sumOfLines. rewrite fold_left_app. reflexivity. Qed.

(** The lines of the charges keep the total equal to the sum of the
    lines. *)
Lemma charge_lines_add_up (extraCharges : list chargeRow) :
  forall items total,
    total = sumOfLines items ->
    Forall (fun i => qty i = 1%float) items ->
    let r :=
      fold_left
        (fun '(items, total) charge =>
           ((items ++ [chargeItem charge])%list,
            (total + parseFloat (ExtraCharge.amount (columns charge)))%float))
        extraCharges (items, total) in
    snd r = sumOfLines (fst r)
    /\ Forall (fun i => qty i = 1%float) (fst r)
    /\ (List.length items + List.length extraCharges
        = List.length (fst r))%nat.
Proof.
  induction extraCharges as [|c cs IH]; intros items total E Q; simpl.
  - repeat split; auto.
  - destruct (IH (items ++ [chargeItem c])%list
                 (total + parseFloat (ExtraCharge.amount (columns c)))%float)
      as (S1 & S2 & S3).
    + rewrite sumOfLines_app, E. reflexivity.
    + apply Forall_app. split; [exact Q|]. constructor; [reflexivity|auto].
    + split; [exact S1|]. split; [exact S2|].
      rewrite <- S3, length_app. simpl. lia.
Qed.

(** X13. A system invoice is never empty, its total is the sum of the
    amounts of its lines, added in the order of the lines, and every line
    has the quantity 1.  There is one line for a positive mortuary charge,
    one for a positive embalming cost and one for each selected extra
    charge; when that gives no line at all, the invoice is the two default
    lines of 15000 and 5000 with the total 20000. *)
Theorem system_invoice_total_is_sum_of_lines
  (mortuary_charge embalming_cost : value) (extraCharges : list chargeRow) :
  let r := systemInvoice mortuary_charge embalming_cost extraCharges in
  let n := ((if truthy mortuary_charge && gt mortuary_charge 0
             then 1 else 0)
            + (if truthy embalming_cost && gt embalming_cost 0
               then 1 else 0)
            + List.length extraCharges)%nat in
  fst r <> []
  /\ snd r = sumOfLines (fst r)
  /\ Forall (fun i => qty i = 1%float) (fst r)
  /\ (if (n =? 0)%nat
      then r = ([fixedItem "Mortuary Services" 15000;
                 fixedItem "Basic Care and Maintenance" 5000],
                20000%float)
      else List.length (fst r) = n).
Proof.
  cbv zeta. unfold systemInvoice.
  set (c1 := truthy mortuary_charge && gt mortuary_charge 0).
  set (c2 := truthy embalming_cost && gt embalming_cost 0).
  set (step := fun '(items, total) charge =>
                 ((items ++ [chargeItem charge])%list,
                  (total + parseFloat (ExtraCharge.amount (columns charge)))
                    %float)).
  assert (D : sumOfLines [fixedItem "Mortuary Services" 15000;
                          fixedItem "Basic Care and Maintenance" 5000]
              = 20000%float) by reflexivity.
  assert (Q1 : forall name x,
             Forall (fun i => qty i = 1%float) [fixedItem name x])
    by (intros; constructor; [reflexivity|constructor]).
  assert (Q2 : forall name x name' x',
             Forall (fun i => qty i = 1%float)
                    [fixedItem name x; fixedItem name' x'])
    by (intros; constructor; [reflexivity|apply Q1]).
  destruct c1, c2; cbn iota; simpl app.
  - destruct (charge_lines_add_up extraCharges
                [fixedItem "Basic Mortuary Services"
                           (parseFloat mortuary_charge);
                 fixedItem "Embalming Services" (parseFloat embalming_cost)]
                (0 + parseFloat mortuary_charge
                 + parseFloat embalming_cost)%float eq_refl (Q2 _ _ _ _))
      as (S1 & S2 & S3).
    fold step in S1, S2, S3. simpl List.length in S3.
    destruct (fold_left step extraCharges _) as [items total].
    simpl in *. destruct items as [|i items]; [discriminate|].
    simpl. repeat split; auto; try discriminate; simpl in S3; lia.
  - destruct (charge_lines_add_up extraCharges
                [fixedItem "Basic Mortuary Services"
                           (parseFloat mortuary_charge)]
                (0 + parseFloat mortuary_charge)%float eq_refl (Q1 _ _))
      as (S1 & S2 & S3).
    fold step in S1, S2, S3. simpl List.length in S3.
    destruct (fold_left step extraCharges _) as [items total].
    simpl in *. destruct items as [|i items]; [discriminate|].
    simpl. repeat split; auto; try discriminate; simpl in S3; lia.
  - destruct (charge_lines_add_up extraCharges
                [fixedItem "Embalming Services" (parseFloat embalming_cost)]
                (0 + parseFloat embalming_cost)%float eq_refl (Q1 _ _))
      as (S1 & S2 & S3).
    fold step in S1, S2, S3. simpl List.length in S3.
    destruct (fold_left step extraCharges _) as [items total].
    simpl in *. destruct items as [|i items]; [discriminate|].
    simpl. repeat split; auto; try discriminate; simpl in S3; lia.
  - destruct (charge_lines_add_up extraCharges [] 0%float eq_refl
                (Forall_nil _)) as (S1 & S2 & S3).
    fold step in S1, S2, S3. simpl List.length in S3.
    destruct (fold_left step extraCharges _) as [items total].
    simpl in *. destruct items as [|i items]; simpl.
    + destruct extraCharges; [|discriminate].
      simpl. repeat split; auto; try discriminate.
    + destruct extraCharges as [|c cs]; [discriminate|].
      simpl. repeat split; auto; try discriminate; simpl in S3; lia.
Qed.


(** *** Invoiced charges *)

Lemma ci_eqb_length (s t : string) :
  ci_eqb s t = true -> String.length s = String.length t.
Proof.
  revert t. induction s as [|a s IH]; intros [|b t]; simpl;
    try discriminate; trivial.
  intros H. apply andb_true_iff in H. f_equal. apply IH, H.
Qed.

Lemma ci_eqb_other_length (s t u : string) :
  ci_eqb s t = true -> String.length t <> String.length u ->
  ci_eqb s u = false.
Proof.
  intros H L. destruct (ci_eqb s u) eqn:E; trivial.
  apply ci_eqb_length in H, E. congruence.
Qed.

(** A pending charge of text status is neither paid nor cancelled. *)
Lemma pending_is_unpaid (v : value) :
  textual v = true -> sql_eq v (VStr "Pending") = true ->
  sql_neq v (VStr "Paid") = true /\ sql_neq v (VStr "Cancelled") = true.
Proof.
  destruct v as [|x|s]; simpl; try discriminate.
  intros _ H.
  rewrite (ci_eqb_other_length s "Pending" "Paid" H),
    (ci_eqb_other_length s "Pending" "Cancelled" H);
    [now split|simpl; lia|simpl; lia].
Qed.

(** Marking keeps the rows that a status filter selects, and their
    amounts, when the filter accepts a pending row and [Invoiced]. *)
Lemma marked_selection (accepts : value -> bool) (sid id : value)
  (rows : list ExtraCharge.row) :
  accepts (VStr "Invoiced") = true ->
  (forall e, In e rows ->
             sql_eq (ExtraCharge.status e) (VStr "Pending") = true ->
             accepts (ExtraCharge.status e) = true) ->
  map ExtraCharge.amount
      (filter (fun e => sql_eq (ExtraCharge.deceased_id e) id
                        && accepts (ExtraCharge.status e))
         (map (fun e =>
                 if sql_eq (ExtraCharge.deceased_id e) sid
                    && sql_eq (ExtraCharge.status e) (VStr "Pending")
                 then {| ExtraCharge.deceased_id := ExtraCharge.deceased_id e;
                         ExtraCharge.amount := ExtraCharge.amount e;
                         ExtraCharge.status := VStr "Invoiced" |}
                 else e) rows))
  = map ExtraCharge.amount
        (filter (fun e => sql_eq (ExtraCharge.deceased_id e) id
                          && accepts (ExtraCharge.status e)) rows).
Proof.
  intros A P. induction rows as [|e rows IH]; [reflexivity|].
  assert (IH' := IH (fun e' H => P e' (or_intror H))). clear IH.
  cbn [map filter].
  destruct (sql_eq (ExtraCharge.deceased_id e) sid
            && sql_eq (ExtraCharge.status e) (VStr "Pending")) eqn:C.
  - apply andb_true_iff in C. destruct C as [_ C].
    cbn [ExtraCharge.deceased_id ExtraCharge.status].
    rewrite A, (P e (or_introl eq_refl) C).
    destruct (sql_eq (ExtraCharge.deceased_id e) id); cbn [andb map];
      rewrite IH'; reflexivity.
  - destruct (sql_eq (ExtraCharge.deceased_id e) id
              && accepts (ExtraCharge.status e)); cbn [map];
      rewrite IH'; reflexivity.
Qed.

Lemma extraCharges_amounts (rows rows' : list ExtraCharge.row) :
  map ExtraCharge.amount rows = map ExtraCharge.amount rows' ->
  extraCharges rows = extraCharges rows'.
Proof.
  unfold extraCharges. generalize 0%float.
  revert rows'. induction rows as [|e rows IH]; intros [|e' rows'] acc H;
    simpl in *; try discriminate; trivial.
  inversion H as [[H1 H2]]. rewrite H1. apply IH, H2.
Qed.

(** X14. A system invoice marks the pending charges of the case as
    invoiced, and with statuses that are text this changes neither what
    the next system invoice selects nor what the pass charges: the charges
    that were billed are selected again, with the same amounts, by every
    later system invoice of the case, and the pass keeps adding them to the
    total. *)
Theorem invoiced_charges_stay_billable
  (t : database) (deceased : Deceased.row) :
  Forall (fun e => textual (ExtraCharge.status e) = true)
         (Db.extra_charges t) ->
  (forall id,
      map ExtraCharge.amount (selectUnpaid (invoiceCharges deceased t) id)
      = map ExtraCharge.amount (selectUnpaid t id))
  /\ (forall d,
         caseExtraCharges (invoiceCharges deceased t) d
         = caseExtraCharges t d).
Proof.
  intros T. rewrite Forall_forall in T.
  unfold invoiceCharges.
  destruct (0 <? _)%nat; [|split; reflexivity].
  split.
  - intros id. unfold selectUnpaid, markInvoiced. simpl.
    apply (marked_selection (fun v => sql_neq v (VStr "Paid"))).
    + reflexivity.
    + intros e He Hp. apply (pending_is_unpaid _ (T e He) Hp).
  - intros d. unfold caseExtraCharges. apply extraCharges_amounts.
    unfold selectExtraCharges, markInvoiced. simpl.
    apply (marked_selection (fun v => sql_neq v (VStr "Cancelled"))).
    + reflexivity.
    + intros e He Hp. apply (pending_is_unpaid _ (T e He) Hp).
Qed.

Lemma invoiced_charges_stay_billable_witness :
  map ExtraCharge.status
      (Db.extra_charges (invoiceCharges Scenario.caseA pendingTables))
  = [VStr "Invoiced"]
  /\ map ExtraCharge.amount
         (selectUnpaid (invoiceCharges Scenario.caseA pendingTables)
                       (VStr "A"))
     = [VStr "500.00"]
  /\ caseExtraCharges (invoiceCharges Scenario.caseA pendingTables)
                      Scenario.caseA
     = 500%float.
Proof.
  destruct (invoiced_charges_stay_billable pendingTables Scenario.caseA)
    as [U P].
  - repeat constructor.
  - split; [reflexivity|]. split.
    + rewrite U. reflexivity.
    + rewrite P. vm_compute. reflexivity.
Defined.


Lemma repeated_payment_is_counted_once_witness :
  Financials.total_payments
    (Financials.summary
       (withPayment {| Payment.deceased_id := VStr "A";
                       Payment.amount := VNum 2000 |}
                    (db Scenario.paidCase))
       Scenario.caseA)
  = 2000%float.
Proof.
  rewrite (repeated_payment_is_counted_once (db Scenario.paidCase)
             Scenario.caseA
             {| Payment.deceased_id := VStr "A";
                Payment.amount := VNum 2000 |}
             {| Payment.deceased_id := VStr "A";
                Payment.amount := VStr "2000.00" |}
             2000%float 2000%float).
  - vm_compute. reflexivity.
  - left. reflexivity.
  - vm_compute. reflexivity.
  - reflexivity.
  - reflexivity.
Defined.

(** *** The summary after a pass *)

(** X15. When the join of the financial summary on the row id finds the
    same extra charges of a case that the pass selects by the case id, the
    summary after a pass counts them twice: the total that the pass stored
    for the case already holds their sum, and the summary adds their
    distinct amounts to that stored total. *)
Theorem summary_adds_extras_to_the_stored_total
  (h : host) (w : world) (now : Date) (d : Deceased.row) :
  Spec.faultless h ->
  Spec.keyed (deceased (db w)) ->
  passTime h w = Some now ->
  In d (selectDeceased (db w)) ->
  Financials.joinedExtraCharges (db w) d
  = selectExtraCharges (db w) (Deceased.deceased_id d) ->
  exists (k : nat) (d' : Deceased.row) (stored : float),
    In d' (deceased (db (snd (updateMortuaryCharges h w))))
    /\ Deceased.id d' = Deceased.id d
    /\ Deceased.deceased_id d' = Deceased.deceased_id d
    /\ Deceased.total_mortuary_charge d' = VNum stored
    /\ stored
       = (getFractionalDays (admissionDate d) (TimeClip (clock h k))
          * baseRate d
          + caseCoffinCharges (db w) d
          + extraCharges (selectExtraCharges (db w) (Deceased.deceased_id d))
          + embalming d)%float
    /\ Financials.total_charges
         (Financials.summary (db (snd (updateMortuaryCharges h w))) d')
       = (stored
          + Financials.coalesce_sum_distinct
              (map ExtraCharge.amount
                   (selectExtraCharges (db w) (Deceased.deceased_id d))))
           %float.
Proof.
  intros Hcalm Hkeys Hnow Hd Hsame.
  destruct (pass_reconciles h w now Hcalm Hkeys Hnow)
    as (Hsrc & _ & _ & Hrec).
  destruct (Hrec d Hd) as (k & _ & Hrow).
  exists k, (reconciled (db w) now d (clock h k)),
    (caseTotal (db w) d (clock h k)).
  split; [exact Hrow|]. split; [reflexivity|]. split; [reflexivity|].
  split; [reflexivity|]. split; [reflexivity|].
  destruct Hsrc as (_ & _ & Hx & _).
  rewrite <- Hsame.
  unfold Financials.summary, Financials.total_charges,
    Financials.joinedExtraCharges.
  rewrite Hx. reflexivity.
Qed.

Lemma summary_adds_extras_to_the_stored_total_witness :
  exists d' : Deceased.row,
    In d' (deceased (db (snd (updateMortuaryCharges Scenario.calm
                                (Scenario.start tablesOfCase1)))))
    /\ Deceased.id d' = VNum 1
    /\ Deceased.total_mortuary_charge d' = VNum 6500
    /\ Financials.total_charges
         (Financials.summary
            (db (snd (updateMortuaryCharges Scenario.calm
                        (Scenario.start tablesOfCase1)))) d')
       = 7000%float.
Proof.
  destruct (summary_adds_extras_to_the_stored_total Scenario.calm
              (Scenario.start tablesOfCase1)
              (Some (Scenario.T0 + 2 * Scenario.day)) Scenario.case1)
    as (k & d' & stored & Hin & Hid & _ & Hstored & Hsum & Htotal).
  - intros n q. reflexivity.
  - split.
    + simpl. constructor; [intros [] | constructor].
    + simpl. intros a b [<-|[]] [<-|[]]. split; reflexivity.
  - reflexivity.
  - vm_compute. left. reflexivity.
  - vm_compute. reflexivity.
  - change (clock Scenario.calm k) with (Scenario.T0 + 2 * Scenario.day)
      in Hsum.
    assert (E : stored = 6500%float)
      by (rewrite Hsum; vm_compute; reflexivity).
    exists d'. split; [exact Hin|]. split; [exact Hid|].
    split; [rewrite Hstored, E; reflexivity|].
    rewrite Htotal, E. vm_compute. reflexivity.
Defined.

End InvoiceFacts.
